(** * go-pastebin: the client of pastebin.go, embedded and verified

    The client is one request pipeline, [doPastebinRequest], with one
    automatic re-authentication, and a handful of methods that each build a
    form, send it through the pipeline and post-process the body.

    The embedding keeps the shape of the Go code:
    - Go strings are byte strings, here [string];
    - [url.Values] and [http.Header] are maps from a key to a list of
      values, here [gmap string (list string)];
    - a Go pair [(value, error)] is a [result];
    - the receiver [c *Client] and the outside world are threaded through a
      small state monad [M]; the world is the chronological list of what the
      call did (requests handed to the HTTP client, lines printed, calls
      entered);
    - the mutual recursion of [doPastebinRequest] and [login] is written
      with fuel, and it is a theorem that three units are always enough. *)

From Stdlib Require Import ZArith Lia Ascii DecimalString.
From stdpp Require Import base option list strings gmap.

(** ** The parts of the Go standard library the client relies on *)

Module Go.

(** [len(s) == 0] *)
Definition is_empty (s : string) : bool :=
  match s with EmptyString => true | String _ _ => false end.

(** [strings.HasPrefix(s, prefix)] *)
Definition strings_HasPrefix (s prefix : string) : bool :=
  String.prefix prefix s.

Fixpoint skip (n : nat) (s : string) : string :=
  match n, s with
  | O, _ => s
  | S _, EmptyString => EmptyString
  | S n', String _ s' => skip n' s'
  end.

(** [strings.TrimPrefix(s, prefix)]: [s[len(prefix):]] when [s] starts
    with [prefix], and [s] itself otherwise. *)
Definition strings_TrimPrefix (s prefix : string) : string :=
  if strings_HasPrefix s prefix then skip (String.length prefix) s else s.

(** [fmt.Sprintf("%d", n)] *)
Definition fmt_d (n : Z) : string := NilZero.string_of_int (Z.to_int n).

(** [url.QueryEscape]: letters, digits and [-_.~] are kept, a space
    becomes [+], every other byte becomes [%XX] in upper-case hex. *)
Definition unreserved (c : ascii) : bool :=
  let n := Ascii.nat_of_ascii c in
  ((97 <=? n) && (n <=? 122)) || ((65 <=? n) && (n <=? 90))
  || ((48 <=? n) && (n <=? 57))
  || (n =? 45) || (n =? 95) || (n =? 46) || (n =? 126).

Definition upperhex (n : nat) : ascii :=
  Ascii.ascii_of_nat (if n <? 10 then 48 + n else 55 + n).

Fixpoint url_QueryEscape (s : string) : string :=
  match s with
  | EmptyString => EmptyString
  | String c s' =>
      let n := Ascii.nat_of_ascii c in
      if unreserved c then String c (url_QueryEscape s')
      else if n =? 32 then String "+"%char (url_QueryEscape s')
      else String "%"%char
             (String (upperhex (n / 16))
                (String (upperhex (n mod 16)) (url_QueryEscape s')))
  end.

(** [sort.Strings]: byte-wise lexicographic order, by insertion. *)
Fixpoint insert_sorted (k : string) (ks : list string) : list string :=
  match ks with
  | [] => [k]
  | k' :: ks' =>
      if String.leb k k' then k :: ks else k' :: insert_sorted k ks'
  end.

Definition sort_Strings (ks : list string) : list string :=
  foldr insert_sorted [] ks.

(** [url.Values.Encode]: the keys in sorted order, every value of a key
    as [key=value], the pairs joined by [&]. *)
Definition encode_key (v : gmap string (list string)) (k : string)
  : list string :=
  (fun x => url_QueryEscape k +:+ "=" +:+ url_QueryEscape x)
    <$> default [] (v !! k).

Definition url_Values_Encode (v : gmap string (list string)) : string :=
  String.concat "&"
    (concat (encode_key v <$> sort_Strings (fst <$> map_to_list v))).

End Go.

(** ** Errors and results *)

(** The values of Go's [error] that the client can return.  The sentinel
    [ErrNotAuthenticated] is one package-level value; [errors.New] and
    [fmt.Errorf] make an error out of a text; the libraries (net/http, io,
    encoding/xml, encoding/json) return errors of their own. *)
Inductive error : Type :=
| ErrNotAuthenticated
| errors_New (text : string)
| lib_error (text : string).

(** [err.Error()] *)
Definition Error (e : error) : string :=
  match e with
  | ErrNotAuthenticated => "must be authenticated to perform this action"
  | errors_New text => text
  | lib_error text => text
  end.

(** A Go result pair [(a, err)]: either the value with a nil error, or the
    error. *)
Inductive result (A : Type) : Type :=
| Ok (a : A)
| Err (e : error).
Arguments Ok {A} a.
Arguments Err {A} e.

Definition is_Err {A} (r : result A) : bool :=
  match r with Ok _ => false | Err _ => true end.

(** ** The data model *)

(** [url.Values], and [http.Header], which has the same shape. *)
Abbreviation Values := (gmap string (list string)).

(** The endpoints (the [const] block of pastebin.go). *)
Definition LoginApiUrl : string := "https://pastebin.com/api/api_login.php".
Definition PostApiUrl : string := "https://pastebin.com/api/api_post.php".
Definition RawApiUrl : string := "https://pastebin.com/api/api_raw.php".
Definition ScrapingApiUrl : string :=
  "https://scrape.pastebin.com/api_scraping.php".
Definition RawUrlPrefix : string := "https://pastebin.com/raw".

(** The texts the pipeline looks for in a body. *)
Definition invalid_api_user_key : string :=
  "Bad API request, invalid api_user_key".
Definition bad_api_request : string := "Bad API request".

Record Client : Type := {
  username : string;
  password : string;
  developerApiKey : string;
  sessionKey : string
}.

(** [c.sessionKey = k] *)
Definition set_sessionKey (k : string) (c : Client) : Client :=
  {| username := username c;
     password := password c;
     developerApiKey := developerApiKey c;
     sessionKey := k |}.

(** [Visibility] is an integer type ([%d] prints it) and [Expiration] a
    string type ([len] and [string(...)] apply to it); their declarations are
    not in pastebin.go.  The model uses [Z] and [string] for them.  *)

Record CreatePasteRequest : Type := {
  Title : string;
  Code : string;
  Syntax : string;
  Visibility : Z;
  Expiration : string
}.

(** Modelled from the spec: the [Paste] struct is declared outside
    pastebin.go.  The fields are the ones the data model lists: key, title,
    owning username, content size, creation timestamp, expiration,
    visibility, syntax, view count, and the raw and full URLs. *)
Record Paste : Type := {
  paste_key : string;
  paste_title : string;
  paste_user : string;
  paste_size : Z;
  paste_date : Z;
  paste_expire : Z;
  paste_visibility : Z;
  paste_syntax : string;
  paste_hits : Z;
  paste_raw_url : string;
  paste_url : string
}.

(** Modelled from the spec: the record of the XML list form, declared
    outside pastebin.go.  It carries what a [Paste] carries except the
    owner, which the list endpoint does not repeat for each paste. *)
Record xmlPaste : Type := {
  xml_key : string;
  xml_title : string;
  xml_size : Z;
  xml_date : Z;
  xml_expire : Z;
  xml_visibility : Z;
  xml_syntax : string;
  xml_hits : Z;
  xml_raw_url : string;
  xml_url : string
}.

(** Modelled from the spec: the record of the JSON scrape form, declared
    outside pastebin.go; it names the owner of each paste itself. *)
Record jsonPaste : Type := {
  json_key : string;
  json_title : string;
  json_user : string;
  json_size : Z;
  json_date : Z;
  json_expire : Z;
  json_visibility : Z;
  json_syntax : string;
  json_hits : Z;
  json_raw_url : string;
  json_url : string
}.

(** Modelled from the spec: [xmlPaste.ToPaste(username)], defined outside
    pastebin.go, converts a record of the XML list form into the common
    [Paste] shape, field by field, "using the caller's username". *)
Definition xmlPaste_ToPaste (p : xmlPaste) (user : string) : Paste :=
  {| paste_key := xml_key p;
     paste_title := xml_title p;
     paste_user := user;
     paste_size := xml_size p;
     paste_date := xml_date p;
     paste_expire := xml_expire p;
     paste_visibility := xml_visibility p;
     paste_syntax := xml_syntax p;
     paste_hits := xml_hits p;
     paste_raw_url := xml_raw_url p;
     paste_url := xml_url p |}.

(** Modelled from the spec: [jsonPaste.ToPaste()], defined outside
    pastebin.go, converts a record of the JSON scrape form into the common
    [Paste] shape. *)
Definition jsonPaste_ToPaste (p : jsonPaste) : Paste :=
  {| paste_key := json_key p;
     paste_title := json_title p;
     paste_user := json_user p;
     paste_size := json_size p;
     paste_date := json_date p;
     paste_expire := json_expire p;
     paste_visibility := json_visibility p;
     paste_syntax := json_syntax p;
     paste_hits := json_hits p;
     paste_raw_url := json_raw_url p;
     paste_url := json_url p |}.

(** ** HTTP and the outside world *)

Record Request : Type := {
  Method : string;
  URL : string;
  Header : Values;
  ReqBody : string
}.

(** [request.Header.Set(key, value)] *)
Definition Header_Set (key value : string) (r : Request) : Request :=
  {| Method := Method r;
     URL := URL r;
     Header := <[key := [value]]> (Header r);
     ReqBody := ReqBody r |}.

(** What the client reads of an [http.Response]: the status code, the
    status text, and what [ioutil.ReadAll(response.Body)] returns. *)
Record Response : Type := {
  StatusCode : Z;
  Status : string;
  Body : result string
}.

(** What a call did, in order.  [EvSend] is a request handed to the HTTP
    client ([client.Do], [client.Get]); [EvPrint] is a line of standard
    output.  [EvEnter] and [EvLogin] are bookkeeping: they record that
    [doPastebinRequest] (with its arguments and the number of activations of
    [doPastebinRequest] around it) or [login] was entered. *)
Inductive Event : Type :=
| EvEnter (depth : nat) (apiUrl : string) (fields : Values) (reAuth : bool)
| EvLogin
| EvSend (request : Request)
| EvPrint (line : string).

Definition World : Type := list Event.

(** The requests handed to the HTTP client so far. *)
Fixpoint sent (w : World) : list Request :=
  match w with
  | [] => []
  | EvSend r :: w' => r :: sent w'
  | _ :: w' => sent w'
  end.

(** What pastebin.go takes from outside: two constants declared in another
    file of the package, and the behaviour of the libraries and of the
    network.
    - [ExpirationNever], [VisibilityPrivate]: the constants.
    - [NewRequest_error method url]: the error of [http.NewRequest], if it
      rejects the method or the URL.
    - [round_trip history request]: what the client returned by
      [getHttpClient()] (also outside pastebin.go) answers to [request],
      after the requests of [history]: a transport error or a response.  The
      answer may depend on everything sent before, so a server with state is
      covered.
    - [xml_Unmarshal], [json_Unmarshal]: [xml.Unmarshal] into [xmlPastes]
      and [json.Unmarshal] into [jsonPastes], returning the decoded
      [Pastes] field. *)
Record Env : Type := {
  ExpirationNever : string;
  VisibilityPrivate : Z;
  NewRequest_error : string -> string -> option error;
  round_trip : list Request -> Request -> result Response;
  xml_Unmarshal : string -> result (list xmlPaste);
  json_Unmarshal : string -> result (list jsonPaste)
}.

(** ** The monad of the methods

    A method runs on its receiver and the world and returns a value with
    the receiver and the world it leaves; [None] is a computation that ran
    out of fuel. *)

Definition M (A : Type) : Type :=
  Client -> World -> option (A * Client * World).

Definition ret {A} (a : A) : M A := fun c w => Some (a, c, w).

Definition bind {A B} (m : M A) (f : A -> M B) : M B :=
  fun c w =>
    match m c w with
    | Some (a, c', w') => f a c' w'
    | None => None
    end.

Notation "x <- m ;; f" := (bind m (fun x => f))
  (at level 20, m at level 99, f at level 200, only parsing).
Notation "'do' m ;; f" := (bind m (fun _ => f))
  (at level 20, m at level 99, f at level 200, only parsing).

Definition out_of_fuel {A} : M A := fun _ _ => None.

(** Reading the receiver, [c.field]. *)
Definition this : M Client := fun c w => Some (c, c, w).

(** [c.sessionKey = k] *)
Definition store_sessionKey (k : string) : M unit :=
  fun c w => Some (tt, set_sessionKey k c, w).

Definition emit (e : Event) : M unit := fun c w => Some (tt, c, w ++ [e]).

(** [fmt.Println(line)] *)
Definition fmt_Println (line : string) : M unit := emit (EvPrint line).

Section Methods.

Context (E : Env).

(** [http.NewRequest(method, url, body)]: a request without headers. *)
Definition http_NewRequest (method url body : string) : result Request :=
  match NewRequest_error E method url with
  | Some err => Err err
  | None =>
      Ok {| Method := method; URL := url; Header := ∅; ReqBody := body |}
  end.

(** Handing a request to the HTTP client: the answer is the environment's,
    given what was sent before. *)
Definition send (request : Request) (w : World) : result Response * World :=
  (round_trip E (sent w) request, w ++ [EvSend request]).

(** [getHttpClient().Do(request)] *)
Definition client_Do (request : Request) : M (result Response) :=
  fun c w => let (r, w') := send request w in Some (r, c, w').

(** The form [login] posts. *)
Definition login_fields (c : Client) : Values :=
  list_to_map
    [ ("api_user_name", [username c]);
      ("api_user_password", [password c]);
      ("api_dev_key", [developerApiKey c]) ].

(** [doPastebinRequest] and [login] call each other; [fuel] bounds the
    nesting of calls.  [depth] is bookkeeping: the number of activations of
    [doPastebinRequest] around the one being entered. *)
Fixpoint doPastebinRequest (fuel depth : nat) (apiUrl : string)
    (fields : Values) (reAuthenticateOnInvalidSessionKey : bool)
    : M (result string) :=
  match fuel with
  | O => out_of_fuel
  | S fuel' =>
    do emit (EvEnter depth apiUrl fields reAuthenticateOnInvalidSessionKey) ;;
    match http_NewRequest "POST" apiUrl (Go.url_Values_Encode fields) with
    | Err err => ret (Err err)
    | Ok request =>
      let request :=
        Header_Set "Content-Type" "application/x-www-form-urlencoded"
          request in
      response <- client_Do request ;;
      match response with
      | Err err => ret (Err err)
      | Ok response =>
        if negb (StatusCode response =? 200)%Z
        then ret (Err (errors_New (Status response)))
        else
          match Body response with
          | Err err => ret (Err err)
          | Ok body =>
            if reAuthenticateOnInvalidSessionKey
               && String.eqb body invalid_api_user_key
            then
              do fmt_Println "re-authenticating due to invalid api_user_key" ;;
              err <- login fuel' (S depth) ;;
              match err with
              | Some err =>
                  ret (Err (errors_New
                    ("failed to re-authenticate on invalid api_user_key response: "
                     +:+ Error err)))
              | None =>
                  (* Retry the request one more time *)
                  doPastebinRequest fuel' (S depth) apiUrl fields false
              end
            else if Go.strings_HasPrefix body bad_api_request
            then ret (Err (errors_New body))
            else ret (Ok body)
          end
      end
    end
  end

with login (fuel depth : nat) : M (option error) :=
  match fuel with
  | O => out_of_fuel
  | S fuel' =>
    do emit EvLogin ;;
    c <- this ;;
    r <- doPastebinRequest fuel' depth LoginApiUrl (login_fields c) false ;;
    match r with
    | Err err => ret (Some err)
    | Ok responseBody =>
        do store_sessionKey responseBody ;;
        ret None
    end
  end.

(** [NewClient]: the client is returned together with the error of
    [login], also when that error is not nil. *)
Definition NewClient (fuel : nat) (username password developerApiKey : string)
    (w : World) : option (option error * Client * World) :=
  let client :=
    {| username := username;
       password := password;
       developerApiKey := developerApiKey;
       sessionKey := EmptyString |} in
  if negb (Go.is_empty username)
  then login fuel 0 client w
  else Some (None, client, w).

(** The methods below return the zero value next to every error that is not
    nil, so [result] loses nothing. *)

(** The form [CreatePaste] posts. *)
Definition CreatePaste_fields (c : Client) (request : CreatePasteRequest)
    (expirationField : string) : Values :=
  list_to_map
    [ ("api_option", ["paste"]);
      ("api_user_key", [sessionKey c]);
      ("api_dev_key", [developerApiKey c]);
      ("api_paste_name", [Title request]);
      ("api_paste_code", [Code request]);
      ("api_paste_format", [Syntax request]);
      ("api_paste_expire_date", [expirationField]);
      ("api_paste_private", [Go.fmt_d (Visibility request)]) ].

Definition CreatePaste (fuel : nat) (request : CreatePasteRequest)
    : M (result string) :=
  c <- this ;;
  if (Visibility request =? VisibilityPrivate E)%Z
     && Go.is_empty (sessionKey c)
  then ret (Err ErrNotAuthenticated)
  else
    let expirationField :=
      if negb (Go.is_empty (Expiration request))
      then Expiration request
      else ExpirationNever E in
    r <- doPastebinRequest fuel 0 PostApiUrl
           (CreatePaste_fields c request expirationField) true ;;
    match r with
    | Err err => ret (Err err)
    | Ok responseBody =>
        ret (Ok (Go.strings_TrimPrefix responseBody "https://pastebin.com/"))
    end.

(** The form [DeletePaste] posts. *)
Definition DeletePaste_fields (c : Client) (pasteKey : string) : Values :=
  list_to_map
    [ ("api_option", ["delete"]);
      ("api_user_key", [sessionKey c]);
      ("api_dev_key", [developerApiKey c]);
      ("api_paste_key", [pasteKey]) ].

Definition DeletePaste (fuel : nat) (pasteKey : string) : M (option error) :=
  c <- this ;;
  if Go.is_empty (sessionKey c)
  then ret (Some ErrNotAuthenticated)
  else
    r <- doPastebinRequest fuel 0 RawApiUrl (DeletePaste_fields c pasteKey)
           true ;;
    match r with
    | Err err => ret (Some err)
    | Ok _ => ret None
    end.

(** The form [ListUserPastes] posts. *)
Definition ListUserPastes_fields (c : Client) : Values :=
  list_to_map
    [ ("api_option", ["list"]);
      ("api_user_key", [sessionKey c]);
      ("api_dev_key", [developerApiKey c]);
      ("api_results_limit", ["100"]) ].

(** The loop [for _, xmlPaste := range xmlPastes.Pastes] with its
    [append]; [user] is [c.username]. *)
Definition collect_xml (user : string) (xmlPastes : list xmlPaste)
    : list Paste :=
  foldl (fun pastes xmlPaste => pastes ++ [xmlPaste_ToPaste xmlPaste user])
    [] xmlPastes.

Definition ListUserPastes (fuel : nat) : M (result (list Paste)) :=
  c <- this ;;
  if Go.is_empty (sessionKey c)
  then ret (Err ErrNotAuthenticated)
  else
    r <- doPastebinRequest fuel 0 PostApiUrl (ListUserPastes_fields c) true ;;
    match r with
    | Err err => ret (Err err)
    | Ok responseBody =>
        match xml_Unmarshal E ("<pastes>" +:+ responseBody +:+ "</pastes>")
        with
        | Err err => ret (Err err)
        | Ok xmlPastes =>
            (* [c.username] is read through the pointer, after the request *)
            c <- this ;;
            ret (Ok (collect_xml (username c) xmlPastes))
        end
    end.

(** The form [GetRawUserPaste] posts. *)
Definition GetRawUserPaste_fields (c : Client) (pasteKey : string) : Values :=
  list_to_map
    [ ("api_option", ["show_paste"]);
      ("api_user_key", [sessionKey c]);
      ("api_dev_key", [developerApiKey c]);
      ("api_paste_key", [pasteKey]) ].

Definition GetRawUserPaste (fuel : nat) (pasteKey : string)
    : M (result string) :=
  c <- this ;;
  if Go.is_empty (sessionKey c)
  then ret (Err ErrNotAuthenticated)
  else
    r <- doPastebinRequest fuel 0 RawApiUrl
           (GetRawUserPaste_fields c pasteKey) true ;;
    match r with
    | Err err => ret (Err err)
    | Ok responseBody => ret (Ok responseBody)
    end.

(** The form [GetRecentPastes] posts. *)
Definition GetRecentPastes_fields (c : Client) : Values :=
  list_to_map
    [ ("api_option", ["show_paste"]);
      ("api_user_key", [sessionKey c]);
      ("api_dev_key", [developerApiKey c]) ].

(** The loop [for _, jsonPaste := range jsonPastes.Pastes] with its
    [append]. *)
Definition collect_json (jsonPastes : list jsonPaste) : list Paste :=
  foldl (fun pastes jsonPaste => pastes ++ [jsonPaste_ToPaste jsonPaste])
    [] jsonPastes.

(** The text [{"pastes":body}] that [GetRecentPastes] decodes. *)
Definition wrap_json (body : string) : string :=
  "{" +:+ String "034"%char "pastes" +:+ String "034"%char ":" +:+ body
  +:+ "}".

Definition GetRecentPastes (fuel : nat) : M (result string) :=
  c <- this ;;
  if Go.is_empty (sessionKey c)
  then ret (Err ErrNotAuthenticated)
  else
    r <- doPastebinRequest fuel 0 ScrapingApiUrl (GetRecentPastes_fields c)
           true ;;
    match r with
    | Err err => ret (Err err)
    | Ok responseBody =>
        match json_Unmarshal E (wrap_json responseBody) with
        | Err err => ret (Err err)
        | Ok jsonPastes =>
            let pastes := collect_json jsonPastes in
            ret (Ok responseBody)
        end
    end.

(** [getHttpClient().Get(url)] *)
Definition client_Get (url : string) (w : World) : result Response * World :=
  send {| Method := "GET"; URL := url; Header := ∅; ReqBody := EmptyString |}
    w.

(** [GetRawPaste] is a function of the package, not a method: it has no
    [Client] to read or to write. *)
Definition GetRawPaste (pasteKey : string) (w : World)
    : result string * World :=
  let (response, w') := client_Get (RawUrlPrefix +:+ "/" +:+ pasteKey) w in
  match response with
  | Err err => (Err err, w')
  | Ok response =>
      match Body response with
      | Err err => (Err err, w')
      | Ok body =>
          if negb (StatusCode response =? 200)%Z
             || Go.strings_HasPrefix body bad_api_request
          then (Err (errors_New body), w')
          else (Ok body, w')
      end
  end.

End Methods.

(** ** Vocabulary of the statements *)

(** The request [doPastebinRequest] builds for [apiUrl] and [fields]. *)
Definition post_request (apiUrl : string) (fields : Values) : Request :=
  {| Method := "POST";
     URL := apiUrl;
     Header := <["Content-Type" := ["application/x-www-form-urlencoded"]]> ∅;
     ReqBody := Go.url_Values_Encode fields |}.

(** The request [GetRawPaste] builds for [pasteKey]. *)
Definition raw_request (pasteKey : string) : Request :=
  {| Method := "GET";
     URL := RawUrlPrefix +:+ "/" +:+ pasteKey;
     Header := ∅;
     ReqBody := EmptyString |}.

(** An answer with status 200 whose body was read as [body]. *)
Definition answers_200 (a : result Response) (body : string) : Prop :=
  exists response,
    a = Ok response /\ StatusCode response = 200%Z
    /\ Body response = Ok body.

(** What the pipeline makes of an answer when re-authentication does not
    come into play: the checks of [doPastebinRequest] on the status, on the
    reading of the body and on the error prefix. *)
Definition read_answer (a : result Response) : result string :=
  match a with
  | Err err => Err err
  | Ok response =>
      if negb (StatusCode response =? 200)%Z
      then Err (errors_New (Status response))
      else
        match Body response with
        | Err err => Err err
        | Ok body =>
            if Go.strings_HasPrefix body bad_api_request
            then Err (errors_New body)
            else Ok body
        end
  end.

(** The answers that make the pipeline re-authenticate, when it is allowed
    to: status 200 and exactly the invalid-session text as body. *)
Definition wants_reauth (a : result Response) : bool :=
  match a with
  | Ok response =>
      (StatusCode response =? 200)%Z
      && match Body response with
         | Ok body => String.eqb body invalid_api_user_key
         | Err _ => false
         end
  | Err _ => false
  end.

(** Counting in a trace: the entries of [login], and the deepest nesting of
    [doPastebinRequest]. *)
Fixpoint logins (w : World) : nat :=
  match w with
  | [] => 0
  | EvLogin :: w' => S (logins w')
  | _ :: w' => logins w'
  end.

Fixpoint max_depth (w : World) : nat :=
  match w with
  | [] => 0
  | EvEnter depth _ _ _ :: w' => Nat.max depth (max_depth w')
  | _ :: w' => max_depth w'
  end.

(** What an operation may change: the three credentials stay, and the
    session key moves only in a run that entered [login]. *)
Definition session_only_by_login (c c' : Client) (evs : World) : Prop :=
  username c' = username c
  /\ password c' = password c
  /\ developerApiKey c' = developerApiKey c
  /\ (sessionKey c' <> sessionKey c -> logins evs = 1)
  /\ (logins evs = 0 -> c' = c).

(** The line printed when a re-authentication starts, and the text put in
    front of the error of a failed one. *)
Definition reauth_notice : string :=
  "re-authenticating due to invalid api_user_key".
Definition reauth_failure : string :=
  "failed to re-authenticate on invalid api_user_key response: ".

(** The operations of a [Client], for statements about all of them. *)
Inductive Operation : Type :=
| OpLogin
| OpDoPastebinRequest (apiUrl : string) (fields : Values) (reAuth : bool)
| OpCreatePaste (request : CreatePasteRequest)
| OpDeletePaste (pasteKey : string)
| OpListUserPastes
| OpGetRawUserPaste (pasteKey : string)
| OpGetRecentPastes.

(** Running an operation, forgetting the value it returns. *)
Definition forget {A} (m : M A) : Client -> World -> option (Client * World) :=
  fun c w =>
    match m c w with
    | Some (_, c', w') => Some (c', w')
    | None => None
    end.

Definition run (E : Env) (fuel : nat) (op : Operation)
    : Client -> World -> option (Client * World) :=
  match op with
  | OpLogin => forget (login E fuel 0)
  | OpDoPastebinRequest apiUrl fields reAuth =>
      forget (doPastebinRequest E fuel 0 apiUrl fields reAuth)
  | OpCreatePaste request => forget (CreatePaste E fuel request)
  | OpDeletePaste pasteKey => forget (DeletePaste E fuel pasteKey)
  | OpListUserPastes => forget (ListUserPastes E fuel)
  | OpGetRawUserPaste pasteKey => forget (GetRawUserPaste E fuel pasteKey)
  | OpGetRecentPastes => forget (GetRecentPastes E fuel)
  end.

(** ** Environments to run the client in *)

(** A server that answers the n-th request with the n-th entry of a script,
    and refuses the connection when the script is over. *)
Definition scripted (script : list (result Response))
    : list Request -> Request -> result Response :=
  fun history _ =>
    default (Err (lib_error "connection refused")) (script !! length history).

Definition ok_200 (body : string) : result Response :=
  Ok {| StatusCode := 200; Status := "200 OK"; Body := Ok body |}.

Definition status_401 : result Response :=
  Ok {| StatusCode := 401; Status := "401 Unauthorized";
        Body := Ok EmptyString |}.

Definition sample_xmlPaste (key : string) : xmlPaste :=
  {| xml_key := key; xml_title := "notes"; xml_size := 15;
     xml_date := 1297953260; xml_expire := 0; xml_visibility := 0;
     xml_syntax := "text"; xml_hits := 3;
     xml_raw_url := "https://pastebin.com/raw/" +:+ key;
     xml_url := "https://pastebin.com/" +:+ key |}.

(** Decoders that know two documents each. *)
Definition sample_xml (doc : string) : result (list xmlPaste) :=
  if String.eqb doc "<pastes><paste>a</paste><paste>b</paste></pastes>"
  then Ok [sample_xmlPaste "a"; sample_xmlPaste "b"]
  else if String.eqb doc "<pastes></pastes>" then Ok []
  else Err (lib_error "XML syntax error").

Definition sample_json (doc : string) : result (list jsonPaste) :=
  if String.eqb doc (wrap_json "[]") then Ok []
  else Err (lib_error "invalid character").

Definition sample_env (script : list (result Response)) : Env :=
  {| ExpirationNever := "N";
     VisibilityPrivate := 2;
     NewRequest_error := fun _ _ => None;
     round_trip := scripted script;
     xml_Unmarshal := sample_xml;
     json_Unmarshal := sample_json |}.

Definition guest : Client :=
  {| username := EmptyString; password := EmptyString;
     developerApiKey := "dev"; sessionKey := EmptyString |}.

Definition alice : Client :=
  {| username := "alice"; password := "secret";
     developerApiKey := "dev"; sessionKey := "old" |}.

Definition sample_request : CreatePasteRequest :=
  {| Title := "t"; Code := "c"; Syntax := "go"; Visibility := 0;
     Expiration := EmptyString |}.

(** ** More vocabulary: what is printed, and the form of each operation *)

(** The lines printed in a trace. *)
Fixpoint printed (w : World) : list string :=
  match w with
  | [] => []
  | EvPrint line :: w' => line :: printed w'
  | _ :: w' => printed w'
  end.

(** The five exported methods, as opposed to [login] and to the pipeline
    called with arbitrary arguments. *)
Definition is_method (op : Operation) : bool :=
  match op with
  | OpLogin | OpDoPastebinRequest _ _ _ => false
  | _ => true
  end.

(** The endpoint, the form and the flag with which an operation calls the
    pipeline, read on the receiver [c] at the time of the call; [login] has
    its own form, [login_fields]. *)
Definition pipeline_call (E : Env) (op : Operation) (c : Client)
    : option (string * Values * bool) :=
  match op with
  | OpLogin => None
  | OpDoPastebinRequest apiUrl fields reAuth => Some (apiUrl, fields, reAuth)
  | OpCreatePaste request =>
      Some (PostApiUrl,
            CreatePaste_fields c request
              (if negb (Go.is_empty (Expiration request))
               then Expiration request
               else ExpirationNever E),
            true)
  | OpDeletePaste pasteKey =>
      Some (RawApiUrl, DeletePaste_fields c pasteKey, true)
  | OpListUserPastes => Some (PostApiUrl, ListUserPastes_fields c, true)
  | OpGetRawUserPaste pasteKey =>
      Some (RawApiUrl, GetRawUserPaste_fields c pasteKey, true)
  | OpGetRecentPastes => Some (ScrapingApiUrl, GetRecentPastes_fields c, true)
  end.

(** A server without memory for which the session key of [alice] has
    expired: it accepts every login with the key [new], refuses the request
    that deletes [k1] with the old key, and accepts everything else. *)
Definition expired_key_server : list Request -> Request -> result Response :=
  fun _ request =>
    if String.eqb (URL request) LoginApiUrl then ok_200 "new"
    else if String.eqb (ReqBody request)
              (Go.url_Values_Encode (DeletePaste_fields alice "k1"))
    then ok_200 invalid_api_user_key
    else ok_200 "Paste Removed".

Definition expired_key_env : Env :=
  {| ExpirationNever := "N";
     VisibilityPrivate := 2;
     NewRequest_error := fun _ _ => None;
     round_trip := expired_key_server;
     xml_Unmarshal := sample_xml;
     json_Unmarshal := sample_json |}.

Definition status_403 (body : string) : result Response :=
  Ok {| StatusCode := 403; Status := "403 Forbidden"; Body := Ok body |}.

(** * Properties *)

(** ** The trace *)

Lemma sent_app (w1 w2 : World) : sent (w1 ++ w2) = sent w1 ++ sent w2.
Proof.
  induction w1 as [|e w1 IH]; [reflexivity|].
  destruct e; simpl; rewrite IH; reflexivity.
Qed.

Lemma logins_app (w1 w2 : World) : logins (w1 ++ w2) = logins w1 + logins w2.
Proof.
  induction w1 as [|e w1 IH]; [reflexivity|].
  destruct e; simpl; rewrite IH; reflexivity.
Qed.

Lemma max_depth_app (w1 w2 : World) :
  max_depth (w1 ++ w2) = Nat.max (max_depth w1) (max_depth w2).
Proof.
  induction w1 as [|e w1 IH]; [reflexivity|].
  destruct e; simpl; rewrite IH; lia.
Qed.

(** ** The texts *)

Lemma invalid_key_is_bad_request :
  Go.strings_HasPrefix invalid_api_user_key bad_api_request = true.
Proof. reflexivity. Qed.

Lemma prefix_app (p s : string) : String.prefix p (p +:+ s) = true.
Proof.
  induction p as [|a p IH]; simpl.
  - destruct s; reflexivity.
  - destruct (ascii_dec a a) as [_|N]; [exact IH | contradiction].
Qed.

Lemma skip_app (p s : string) : Go.skip (String.length p) (p +:+ s) = s.
Proof. induction p as [|a p IH]; simpl; [reflexivity | exact IH]. Qed.

Lemma TrimPrefix_app (p s : string) : Go.strings_TrimPrefix (p +:+ s) p = s.
Proof.
  unfold Go.strings_TrimPrefix, Go.strings_HasPrefix.
  rewrite prefix_app. apply skip_app.
Qed.

Lemma is_empty_true (s : string) : Go.is_empty s = true <-> s = EmptyString.
Proof. destruct s; simpl; split; congruence. Qed.

Lemma is_empty_length (s : string) :
  Go.is_empty s = (String.length s =? 0).
Proof. destruct s; reflexivity. Qed.

Lemma read_answer_200 a body :
  answers_200 a body ->
  read_answer a
  = if Go.strings_HasPrefix body bad_api_request
    then Err (errors_New body) else Ok body.
Proof.
  intros (response & -> & H200 & HB).
  unfold read_answer. rewrite H200, HB. reflexivity.
Qed.

(** ** The pipeline, one equation for each way through it *)

Section Pipeline.

Context (E : Env).

(** Without re-authentication the pipeline is one exchange. *)
Lemma doPastebinRequest_plain n d url f c w :
  doPastebinRequest E (S n) d url f false c w =
  match NewRequest_error E "POST" url with
  | Some err => Some (Err err, c, w ++ [EvEnter d url f false])
  | None =>
      Some (read_answer (round_trip E (sent w) (post_request url f)), c,
            w ++ [EvEnter d url f false; EvSend (post_request url f)])
  end.
Proof.
  simpl. unfold bind, emit, http_NewRequest.
  destruct (NewRequest_error E "POST" url) as [err|]; [reflexivity|].
  unfold client_Do, send.
  rewrite sent_app; simpl; rewrite app_nil_r, <- app_assoc; simpl.
  unfold post_request, Header_Set, read_answer; simpl.
  destruct (round_trip E (sent w) _) as [response|err]; [|reflexivity].
  destruct (negb _); [reflexivity|].
  destruct (Body response) as [body|err]; [|reflexivity].
  destruct (Go.strings_HasPrefix _ _); reflexivity.
Qed.

Lemma wants_reauth_200 a :
  wants_reauth a = true <-> answers_200 a invalid_api_user_key.
Proof.
  unfold wants_reauth, answers_200. split.
  - destruct a as [response|err]; [|discriminate].
    intros [H200 Hbody]%andb_true_iff.
    destruct (Body response) as [body|err] eqn:HB; [|discriminate].
    apply String.eqb_eq in Hbody; subst body.
    exists response. repeat split; [lia | exact HB].
  - intros (response & -> & H200 & HB).
    rewrite H200, HB. reflexivity.
Qed.

(** [login] is one plain exchange with the login endpoint; the session key
    is stored when, and only when, the exchange succeeds. *)
Lemma login_eq n d c w :
  login E (S (S n)) d c w =
  match NewRequest_error E "POST" LoginApiUrl with
  | Some err =>
      Some (Some err, c,
            w ++ [EvLogin; EvEnter d LoginApiUrl (login_fields c) false])
  | None =>
      let w' :=
        w ++ [EvLogin; EvEnter d LoginApiUrl (login_fields c) false;
              EvSend (post_request LoginApiUrl (login_fields c))] in
      match read_answer
              (round_trip E (sent w) (post_request LoginApiUrl (login_fields c)))
      with
      | Err err => Some (Some err, c, w')
      | Ok responseBody => Some (None, set_sessionKey responseBody c, w')
      end
  end.
Proof.
  change (login E (S (S n)) d c w) with
    (bind (emit EvLogin) (fun _ =>
       bind this (fun c0 =>
         bind (doPastebinRequest E (S n) d LoginApiUrl (login_fields c0) false)
           (fun r =>
              match r with
              | Err err => ret (Some err)
              | Ok responseBody =>
                  bind (store_sessionKey responseBody) (fun _ => ret None)
              end))) c w).
  unfold bind at 1 2 3, emit, this.
  rewrite doPastebinRequest_plain, sent_app; simpl; rewrite app_nil_r.
  destruct (NewRequest_error E "POST" LoginApiUrl) as [err|].
  - rewrite <- app_assoc. reflexivity.
  - rewrite <- app_assoc; simpl.
    destruct (read_answer _); reflexivity.
Qed.

(** The pipeline on an answer that does not start a re-authentication. *)
Lemma doPastebinRequest_direct n d url f reAuth c w :
  NewRequest_error E "POST" url = None ->
  reAuth && wants_reauth (round_trip E (sent w) (post_request url f)) = false ->
  doPastebinRequest E (S n) d url f reAuth c w =
  Some (read_answer (round_trip E (sent w) (post_request url f)), c,
        w ++ [EvEnter d url f reAuth; EvSend (post_request url f)]).
Proof.
  intros HN Hre.
  destruct reAuth; [|rewrite doPastebinRequest_plain, HN; reflexivity].
  simpl in Hre. simpl. unfold bind, emit, http_NewRequest. rewrite HN.
  unfold client_Do, send.
  rewrite sent_app; simpl; rewrite app_nil_r, <- app_assoc; simpl.
  change (Header_Set _ _ _) with (post_request url f).
  unfold wants_reauth in Hre. unfold read_answer.
  destruct (round_trip E (sent w) (post_request url f)) as [response|err];
    [|reflexivity].
  destruct (StatusCode response =? 200)%Z; simpl in *; [|reflexivity].
  destruct (Body response) as [body|err]; [|reflexivity].
  change (String.eqb body "Bad API request, invalid api_user_key")
    with (String.eqb body invalid_api_user_key).
  rewrite Hre.
  destruct (Go.strings_HasPrefix _ _); reflexivity.
Qed.

(** The pipeline on the invalid-session answer, when it may
    re-authenticate: the notice, [login], and, if [login] returns nil, the
    retry. *)
Lemma doPastebinRequest_reauth n d url f c w :
  NewRequest_error E "POST" url = None ->
  wants_reauth (round_trip E (sent w) (post_request url f)) = true ->
  doPastebinRequest E (S n) d url f true c w =
  match login E n (S d) c
          (w ++ [EvEnter d url f true; EvSend (post_request url f);
                 EvPrint reauth_notice])
  with
  | Some (Some err, c', w') =>
      Some (Err (errors_New (reauth_failure +:+ Error err)), c', w')
  | Some (None, c', w') => doPastebinRequest E n (S d) url f false c' w'
  | None => None
  end.
Proof.
  intros HN Hre.
  simpl. unfold bind, emit, http_NewRequest. rewrite HN.
  unfold client_Do, send.
  rewrite sent_app; simpl; rewrite app_nil_r, <- app_assoc; simpl.
  change (Header_Set _ _ _) with (post_request url f).
  unfold wants_reauth in Hre.
  destruct (round_trip E (sent w) (post_request url f)) as [response|err];
    [|discriminate].
  apply andb_true_iff in Hre as [H200 Hbody].
  rewrite H200; simpl.
  destruct (Body response) as [body|err]; [|discriminate].
  change (String.eqb body "Bad API request, invalid api_user_key")
    with (String.eqb body invalid_api_user_key).
  rewrite Hbody. unfold fmt_Println, emit.
  rewrite <- app_assoc; simpl.
  destruct (login E n (S d) c _) as [[[[err|] c'] w']|]; reflexivity.
Qed.

(** [login] cannot do without two units of fuel, one for itself and one for
    its exchange. *)
Lemma login_starved d c w : login E 0 d c w = None /\ login E 1 d c w = None.
Proof. split; reflexivity. Qed.

(** The shape of every run of the pipeline that returns: either one
    exchange at most, the receiver untouched; or the first exchange, the
    notice, one [login] and, if that one stored a key, one retry. *)
Lemma doPastebinRequest_shape fuel d url f reAuth c w r c' w' :
  doPastebinRequest E fuel d url f reAuth c w = Some (r, c', w') ->
  (c' = c
   /\ ((NewRequest_error E "POST" url <> None
        /\ w' = w ++ [EvEnter d url f reAuth])
       \/ w' = w ++ [EvEnter d url f reAuth; EvSend (post_request url f)]))
  \/ (reAuth = true
      /\ exists L,
          w' = w ++ [EvEnter d url f true; EvSend (post_request url f);
                     EvPrint reauth_notice; EvLogin;
                     EvEnter (S d) LoginApiUrl (login_fields c) false] ++ L
          /\ ((c' = c
               /\ (L = []
                   \/ L = [EvSend (post_request LoginApiUrl (login_fields c))]))
              \/ exists k,
                  c' = set_sessionKey k c
                  /\ L = [EvSend (post_request LoginApiUrl (login_fields c));
                          EvEnter (S d) url f false;
                          EvSend (post_request url f)])).
Proof.
  destruct fuel as [|n]; [discriminate|].
  destruct (NewRequest_error E "POST" url) as [err|] eqn:HN.
  { simpl. unfold bind, emit, http_NewRequest. rewrite HN.
    intros [= <- <- <-]. left. split; [reflexivity|]. left. split; easy. }
  destruct (reAuth && wants_reauth
              (round_trip E (sent w) (post_request url f))) eqn:Hre.
  2:{ rewrite doPastebinRequest_direct by assumption.
      intros [= <- <- <-]. left. auto. }
  apply andb_true_iff in Hre as [-> Hre].
  rewrite doPastebinRequest_reauth by assumption.
  destruct n as [|[|n]]; [discriminate..|].
  rewrite login_eq.
  destruct (NewRequest_error E "POST" LoginApiUrl) as [err|].
  { intros [= <- <- <-]. right. split; [reflexivity|].
    exists []. rewrite <- app_assoc. simpl. auto. }
  cbv zeta.
  destruct (read_answer _) as [k|err].
  - rewrite doPastebinRequest_plain, HN.
    intros [= <- <- <-]. right. split; [reflexivity|].
    eexists. rewrite <- !app_assoc. simpl. split; [reflexivity|].
    right. exists k. auto.
  - intros [= <- <- <-]. right. split; [reflexivity|].
    eexists. rewrite <- !app_assoc. simpl. split; [reflexivity|]. auto.
Qed.

End Pipeline.

(** ** Re-authentication *)

(** Whatever the environment answers, a call from the top enters [login]
    at most once and nests [doPastebinRequest] at most one deep. *)
Lemma nesting_at_most_one (E : Env) fuel url f reAuth c w r c' w' :
  doPastebinRequest E fuel 0 url f reAuth c w = Some (r, c', w') ->
  exists evs, w' = w ++ evs /\ logins evs <= 1 /\ max_depth evs <= 1.
Proof.
  intros H. apply doPastebinRequest_shape in H.
  destruct H as [[_ [[_ ->] | ->]]
                | [_ (L & -> & [[_ [-> | ->]] | (k & _ & ->)])]];
    eexists; (split; [reflexivity|]); simpl; lia.
Qed.

(** Three units of fuel are always enough: with them the pipeline returns,
    whatever the environment answers. *)
Lemma doPastebinRequest_returns (E : Env) n d url f reAuth c w :
  exists r c' w',
    doPastebinRequest E (3 + n) d url f reAuth c w = Some (r, c', w').
Proof.
  destruct (NewRequest_error E "POST" url) as [err|] eqn:HN.
  { simpl. unfold bind, emit, http_NewRequest. rewrite HN. eauto. }
  destruct (reAuth && wants_reauth
              (round_trip E (sent w) (post_request url f))) eqn:Hre.
  2:{ change (3 + n) with (S (2 + n)).
      rewrite doPastebinRequest_direct by assumption. eauto. }
  apply andb_true_iff in Hre as [-> Hre].
  change (3 + n) with (S (S (S n))).
  rewrite doPastebinRequest_reauth, login_eq by assumption.
  destruct (NewRequest_error E "POST" LoginApiUrl); [eauto|].
  cbv zeta. destruct (read_answer _); [|eauto].
  rewrite doPastebinRequest_plain, HN. eauto.
Qed.

(** C1, as the code has it.  A call that may re-authenticate and is answered
    (status 200) with exactly the invalid-session text prints the notice and
    runs [login] once.  If [login] returns an error, the call returns the
    re-authentication failure and nothing is retried.  If [login] returns
    nil, the request is retried once, with the flag set to false; the call
    returns what the retry returns, and a retry that is answered with the
    invalid-session text again returns that text as an error.  In both
    cases [login] is entered once and no activation of [doPastebinRequest]
    is nested deeper than one. *)
Theorem reauthentication_once (E : Env) n url f c w :
  NewRequest_error E "POST" url = None ->
  answers_200 (round_trip E (sent w) (post_request url f))
    invalid_api_user_key ->
  let first :=
    [EvEnter 0 url f true; EvSend (post_request url f);
     EvPrint reauth_notice] in
  exists err c1 L r R,
    login E (2 + n) 1 c (w ++ first) = Some (err, c1, (w ++ first) ++ L)
    /\ doPastebinRequest E (3 + n) 0 url f true c w
       = Some (r, c1, (w ++ first) ++ L ++ R)
    /\ logins (first ++ L ++ R) = 1
    /\ max_depth (first ++ L ++ R) = 1
    /\ match err with
       | Some e =>
           R = [] /\ r = Err (errors_New (reauth_failure +:+ Error e))
       | None =>
           R = [EvEnter 1 url f false; EvSend (post_request url f)]
           /\ doPastebinRequest E (2 + n) 1 url f false c1 ((w ++ first) ++ L)
              = Some (r, c1, (w ++ first) ++ L ++ R)
           /\ (answers_200
                 (round_trip E (sent ((w ++ first) ++ L)) (post_request url f))
                 invalid_api_user_key ->
               r = Err (errors_New invalid_api_user_key))
       end.
Proof.
  intros HN Hre%wants_reauth_200 first.
  change (3 + n) with (S (S (S n))). change (2 + n) with (S (S n)).
  rewrite doPastebinRequest_reauth by assumption.
  fold first. rewrite login_eq.
  destruct (NewRequest_error E "POST" LoginApiUrl) as [err|].
  { exists (Some err), c. eexists. eexists. exists [].
    split; [reflexivity|]. rewrite app_nil_r. repeat split. }
  cbv zeta.
  destruct (read_answer _) as [k|err].
  - exists None, (set_sessionKey k c). eexists.
    rewrite doPastebinRequest_plain, HN.
    eexists. exists [EvEnter 1 url f false; EvSend (post_request url f)].
    split; [reflexivity|]. rewrite <- !app_assoc. repeat split.
    + rewrite doPastebinRequest_plain, HN, <- !app_assoc. reflexivity.
    + intros (response & Hr & H200 & HB). rewrite Hr.
      unfold read_answer. rewrite H200, HB. reflexivity.
  - exists (Some err), c. eexists. eexists. exists [].
    split; [reflexivity|]. rewrite app_nil_r. repeat split.
Qed.

(** C5: a body (status 200) that starts with the error prefix, other than
    the invalid-session text when re-authentication is allowed, comes back
    as an error whose text is the whole body. *)
Theorem api_error_verbatim (E : Env) n d url f reAuth c w body :
  NewRequest_error E "POST" url = None ->
  answers_200 (round_trip E (sent w) (post_request url f)) body ->
  Go.strings_HasPrefix body bad_api_request = true ->
  (reAuth = true -> body <> invalid_api_user_key) ->
  exists err,
    doPastebinRequest E (S n) d url f reAuth c w
    = Some (Err err, c,
            w ++ [EvEnter d url f reAuth; EvSend (post_request url f)])
    /\ Error err = body.
Proof.
  intros HN (response & Hr & H200 & HB) Hpre Hne.
  exists (errors_New body). split; [|reflexivity].
  rewrite doPastebinRequest_direct; [|assumption|].
  - rewrite Hr. unfold read_answer. rewrite H200, HB, Hpre. reflexivity.
  - destruct reAuth; [|reflexivity].
    rewrite Hr. unfold wants_reauth. rewrite H200, HB. simpl.
    apply String.eqb_neq. auto.
Qed.

(** C2: after a successful automatic re-login the retry is entered with the
    fields of the original call and sends the very request of the original
    call.  A form that carried the receiver's session key when the call was
    made still carries that key in the retry, although the receiver now
    holds the key that [login] stored. *)
Theorem retry_keeps_stale_fields (E : Env) n url f c w k :
  NewRequest_error E "POST" url = None ->
  NewRequest_error E "POST" LoginApiUrl = None ->
  answers_200 (round_trip E (sent w) (post_request url f))
    invalid_api_user_key ->
  answers_200
    (round_trip E (sent w ++ [post_request url f])
       (post_request LoginApiUrl (login_fields c))) k ->
  Go.strings_HasPrefix k bad_api_request = false ->
  f !! "api_user_key" = Some [sessionKey c] ->
  exists r c' f',
    doPastebinRequest E (3 + n) 0 url f true c w
    = Some (r, c',
            w ++ [EvEnter 0 url f true; EvSend (post_request url f);
                  EvPrint reauth_notice; EvLogin;
                  EvEnter 1 LoginApiUrl (login_fields c) false;
                  EvSend (post_request LoginApiUrl (login_fields c));
                  EvEnter 1 url f' false; EvSend (post_request url f')])
    /\ f' = f
    /\ sessionKey c' = k
    /\ f' !! "api_user_key" = Some [sessionKey c]
    /\ (k <> sessionKey c -> f' !! "api_user_key" <> Some [sessionKey c']).
Proof.
  intros HN HL Hre%wants_reauth_200 Hlogin Hpre Hkey.
  change (3 + n) with (S (S (S n))).
  rewrite doPastebinRequest_reauth, login_eq, HL by assumption.
  cbv zeta. rewrite sent_app. cbn [sent].
  rewrite (read_answer_200 _ _ Hlogin), Hpre.
  rewrite doPastebinRequest_plain, HN.
  eexists. exists (set_sessionKey k c), f.
  rewrite <- !app_assoc. simpl. repeat split; [assumption|].
  intros Hne. rewrite Hkey. congruence.
Qed.

(** ** The methods *)

Lemma collect_xml_map user xmlPastes :
  collect_xml user xmlPastes
  = map (fun xmlPaste => xmlPaste_ToPaste xmlPaste user) xmlPastes.
Proof.
  unfold collect_xml.
  enough (H : forall acc,
             foldl (fun pastes xmlPaste =>
                      pastes ++ [xmlPaste_ToPaste xmlPaste user]) acc xmlPastes
             = acc ++ map (fun xmlPaste => xmlPaste_ToPaste xmlPaste user)
                        xmlPastes)
    by apply (H []).
  induction xmlPastes as [|x xs IH]; intros acc; simpl.
  - rewrite app_nil_r. reflexivity.
  - rewrite IH, <- app_assoc. reflexivity.
Qed.

Lemma CreatePaste_fields_expire c request expirationField :
  CreatePaste_fields c request expirationField !! "api_paste_expire_date"
  = Some [expirationField].
Proof. unfold CreatePaste_fields. simpl. by simplify_map_eq. Qed.

Lemma DeletePaste_fields_key c pasteKey :
  DeletePaste_fields c pasteKey !! "api_user_key" = Some [sessionKey c].
Proof. unfold DeletePaste_fields. simpl. by simplify_map_eq. Qed.

Lemma not_empty (s : string) : s <> EmptyString -> Go.is_empty s = false.
Proof. destruct s; [congruence | reflexivity]. Qed.

(** C3: on a client without a session key the four methods that need a
    session, and [CreatePaste] for a private paste, return
    [ErrNotAuthenticated] at once: the receiver and the world are as they
    were, so nothing was encoded, entered or sent. *)
Theorem session_required (E : Env) fuel pasteKey request c w :
  sessionKey c = EmptyString ->
  DeletePaste E fuel pasteKey c w = Some (Some ErrNotAuthenticated, c, w)
  /\ ListUserPastes E fuel c w = Some (Err ErrNotAuthenticated, c, w)
  /\ GetRawUserPaste E fuel pasteKey c w = Some (Err ErrNotAuthenticated, c, w)
  /\ GetRecentPastes E fuel c w = Some (Err ErrNotAuthenticated, c, w)
  /\ (Visibility request = VisibilityPrivate E ->
      CreatePaste E fuel request c w = Some (Err ErrNotAuthenticated, c, w)).
Proof.
  intros Hkey.
  unfold DeletePaste, ListUserPastes, GetRawUserPaste, GetRecentPastes,
    CreatePaste, bind, this, ret.
  rewrite Hkey. simpl. repeat split.
  intros ->. rewrite Z.eqb_refl. reflexivity.
Qed.

Lemma length_append (s1 s2 : string) :
  String.length (s1 +:+ s2) = String.length s1 + String.length s2.
Proof. induction s1 as [|a s1 IH]; simpl; [reflexivity | by rewrite IH]. Qed.

(** C4: when the pipeline hands [GetRecentPastes] a body, the method
    decodes the document made of an opening brace, the member name
    [pastes] between double quotes (character 34), a colon, the body, and
    a closing brace, so that the body stands as the value of that member.
    Then it returns the body itself, as it came: the decoded records are
    dropped, and only a decoding error changes the result. *)
Theorem recent_pastes_raw_body (E : Env) fuel c w body c' w' :
  sessionKey c <> EmptyString ->
  doPastebinRequest E fuel 0 ScrapingApiUrl (GetRecentPastes_fields c) true c w
  = Some (Ok body, c', w') ->
  let quote := String (Ascii.ascii_of_nat 34) EmptyString in
  let document :=
    "{" +:+ quote +:+ "pastes" +:+ quote +:+ ":" +:+ body +:+ "}" in
  (forall jsonPastes,
      json_Unmarshal E document = Ok jsonPastes ->
      GetRecentPastes E fuel c w = Some (Ok body, c', w'))
  /\ (forall err,
      json_Unmarshal E document = Err err ->
      GetRecentPastes E fuel c w = Some (Err err, c', w'))
  /\ String.length document = String.length body + 11.
Proof.
  intros Hkey%not_empty Hdo quote document.
  assert (Hdoc : wrap_json body = document) by reflexivity.
  unfold GetRecentPastes, bind, this, ret.
  rewrite Hkey, Hdo, Hdoc.
  split; [|split].
  - intros jsonPastes ->. reflexivity.
  - intros err ->. reflexivity.
  - subst document quote. simpl. f_equal.
    rewrite !length_append. simpl. lia.
Qed.

(** C7: a successful [CreatePaste] returns the body the pipeline returned,
    without the prefix [https://pastebin.com/] when the body starts with it;
    the body [https://pastebin.com/abc123] gives the key [abc123]. *)
Theorem create_paste_key (E : Env) fuel request c w key c' w' :
  CreatePaste E fuel request c w = Some (Ok key, c', w') ->
  exists body expirationField,
    doPastebinRequest E fuel 0 PostApiUrl
      (CreatePaste_fields c request expirationField) true c w
    = Some (Ok body, c', w')
    /\ key = Go.strings_TrimPrefix body "https://pastebin.com/"
    /\ (forall rest, body = "https://pastebin.com/" +:+ rest -> key = rest)
    /\ (body = "https://pastebin.com/abc123" -> key = "abc123").
Proof.
  unfold CreatePaste, bind, this, ret.
  destruct (_ && _); [discriminate|].
  match goal with
  | |- context [doPastebinRequest E fuel 0 PostApiUrl ?f true c w] =>
      destruct (doPastebinRequest E fuel 0 PostApiUrl f true c w)
        as [[[[body|err] c1] w1]|] eqn:Hdo; [|discriminate..]
  end.
  intros [= <- <- <-].
  eexists body, _. split; [exact Hdo|]. split; [reflexivity|].
  split.
  - intros rest ->. apply TrimPrefix_app.
  - intros ->. reflexivity.
Qed.

(** The credentials survive the pipeline, and the session key moves only
    through [login]. *)
Lemma doPastebinRequest_frame (E : Env) fuel d url f reAuth c w r c' w' :
  doPastebinRequest E fuel d url f reAuth c w = Some (r, c', w') ->
  exists evs, w' = w ++ evs /\ session_only_by_login c c' evs.
Proof.
  intros H. apply doPastebinRequest_shape in H.
  unfold session_only_by_login.
  destruct H as [[-> [[_ ->] | ->]]
                | [-> (L & -> & [[-> [-> | ->]] | (k & -> & ->)])]];
    eexists; (split; [reflexivity|]); simpl;
    repeat split; congruence.
Qed.

Lemma login_frame (E : Env) fuel d c w err c' w' :
  login E fuel d c w = Some (err, c', w') ->
  exists evs, w' = w ++ evs /\ session_only_by_login c c' evs.
Proof.
  destruct fuel as [|[|n]]; [discriminate..|].
  rewrite login_eq. unfold session_only_by_login.
  destruct (NewRequest_error E "POST" LoginApiUrl).
  - intros [= <- <- <-]. eexists; split; [reflexivity|].
    simpl; repeat split; congruence.
  - cbv zeta. destruct (read_answer _); intros [= <- <- <-];
      (eexists; split; [reflexivity|]); simpl; repeat split; congruence.
Qed.

(** C6: when the pipeline hands [ListUserPastes] a fragment that decodes,
    inside a [<pastes>] root, to N paste elements, the method returns N
    records, in order, each one the conversion of its element with the
    receiver's own username as owner. *)
Theorem list_user_pastes_records (E : Env) fuel c w body c' w' xmlPastes :
  sessionKey c <> EmptyString ->
  doPastebinRequest E fuel 0 PostApiUrl (ListUserPastes_fields c) true c w
  = Some (Ok body, c', w') ->
  xml_Unmarshal E ("<pastes>" +:+ body +:+ "</pastes>") = Ok xmlPastes ->
  exists pastes,
    ListUserPastes E fuel c w = Some (Ok pastes, c', w')
    /\ length pastes = length xmlPastes
    /\ pastes
       = map (fun xmlPaste => xmlPaste_ToPaste xmlPaste (username c)) xmlPastes
    /\ Forall (fun paste => paste_user paste = username c) pastes.
Proof.
  intros Hkey%not_empty Hdo Hxml.
  destruct (doPastebinRequest_frame _ _ _ _ _ _ _ _ _ _ _ Hdo)
    as (evs & _ & Huser & _).
  unfold ListUserPastes, bind, this, ret.
  rewrite Hkey, Hdo, Hxml, collect_xml_map, Huser.
  eexists. split; [reflexivity|].
  split; [apply length_map|]. split; [reflexivity|].
  apply List.Forall_forall. intros paste (x & <- & _)%in_map_iff. reflexivity.
Qed.

(** Every request the pipeline sends goes to its own endpoint with its own
    form, or to the login endpoint. *)
Lemma doPastebinRequest_sends (E : Env) fuel d url f reAuth c w r c' w' rq :
  doPastebinRequest E fuel d url f reAuth c w = Some (r, c', w') ->
  In rq (sent w') ->
  In rq (sent w) \/ rq = post_request url f
  \/ rq = post_request LoginApiUrl (login_fields c).
Proof.
  intros H. apply doPastebinRequest_shape in H.
  destruct H as [[-> [[_ ->] | ->]]
                | [-> (L & -> & [[-> [-> | ->]] | (k & -> & ->)])]];
    rewrite sent_app, in_app_iff; simpl; intuition.
Qed.

(** The body of the request [CreatePaste] sends: the eight fields in the
    order of their names, each value escaped. *)
Lemma CreatePaste_fields_encoded c request expirationField :
  Go.url_Values_Encode (CreatePaste_fields c request expirationField)
  = "api_dev_key=" +:+ Go.url_QueryEscape (developerApiKey c)
    +:+ "&api_option=paste"
    +:+ "&api_paste_code=" +:+ Go.url_QueryEscape (Code request)
    +:+ "&api_paste_expire_date=" +:+ Go.url_QueryEscape expirationField
    +:+ "&api_paste_format=" +:+ Go.url_QueryEscape (Syntax request)
    +:+ "&api_paste_name=" +:+ Go.url_QueryEscape (Title request)
    +:+ "&api_paste_private="
    +:+ Go.url_QueryEscape (Go.fmt_d (Visibility request))
    +:+ "&api_user_key=" +:+ Go.url_QueryEscape (sessionKey c).
Proof. vm_compute. reflexivity. Qed.

(** C8, as the code has it.  Unless the guard of [CreatePaste] returns at
    once (a private paste on a client without session key), the form the
    method hands to the pipeline carries [ExpirationNever] in
    [api_paste_expire_date] when the request has no expiration, and the
    request's own expiration otherwise.  The request that goes out to the
    post endpoint is a POST whose body is the form encoding of the eight
    fields, with [api_paste_expire_date=] followed by that value
    (escaped) in it.  Whatever is sent to the post endpoint during the call
    is that request. *)
Theorem create_paste_expiration (E : Env) n request c w :
  NewRequest_error E "POST" PostApiUrl = None ->
  (Visibility request = VisibilityPrivate E -> sessionKey c <> EmptyString) ->
  exists expirationField fields r c' evs,
    CreatePaste E (3 + n) request c w
    = Some (r, c',
            w ++ EvEnter 0 PostApiUrl fields true
              :: EvSend (post_request PostApiUrl fields) :: evs)
    /\ (Expiration request = EmptyString ->
        expirationField = ExpirationNever E)
    /\ (Expiration request <> EmptyString ->
        expirationField = Expiration request)
    /\ fields !! "api_paste_expire_date" = Some [expirationField]
    /\ Method (post_request PostApiUrl fields) = "POST"
    /\ URL (post_request PostApiUrl fields)
       = "https://pastebin.com/api/api_post.php"
    /\ ReqBody (post_request PostApiUrl fields)
       = "api_dev_key=" +:+ Go.url_QueryEscape (developerApiKey c)
         +:+ "&api_option=paste"
         +:+ "&api_paste_code=" +:+ Go.url_QueryEscape (Code request)
         +:+ "&api_paste_expire_date=" +:+ Go.url_QueryEscape expirationField
         +:+ "&api_paste_format=" +:+ Go.url_QueryEscape (Syntax request)
         +:+ "&api_paste_name=" +:+ Go.url_QueryEscape (Title request)
         +:+ "&api_paste_private="
         +:+ Go.url_QueryEscape (Go.fmt_d (Visibility request))
         +:+ "&api_user_key=" +:+ Go.url_QueryEscape (sessionKey c)
    /\ (forall rq, In rq (sent evs) -> URL rq = PostApiUrl ->
        rq = post_request PostApiUrl fields).
Proof.
  intros HN Hvis.
  unfold CreatePaste, bind, this.
  destruct ((Visibility request =? VisibilityPrivate E)%Z
            && Go.is_empty (sessionKey c)) eqn:Hguard.
  { apply andb_true_iff in Hguard as [Hv%Z.eqb_eq Hk%is_empty_true].
    destruct (Hvis Hv Hk). }
  set (expirationField :=
         if negb (Go.is_empty (Expiration request))
         then Expiration request else ExpirationNever E).
  set (fields := CreatePaste_fields c request expirationField).
  destruct (doPastebinRequest_returns E n 0 PostApiUrl fields true c w)
    as (r & c' & w' & Hdo).
  rewrite Hdo.
  assert (Hshape := Hdo). apply doPastebinRequest_shape in Hshape.
  assert (exists evs,
             w' = w ++ EvEnter 0 PostApiUrl fields true
                    :: EvSend (post_request PostApiUrl fields) :: evs
             /\ forall rq, In rq (sent evs) ->
                  rq = post_request PostApiUrl fields
                  \/ rq = post_request LoginApiUrl (login_fields c))
    as (evs & -> & Hsent).
  { destruct Hshape
      as [[_ [[HN' _] | ->]]
         | [_ (L & -> & [[_ [-> | ->]] | (k & _ & ->)])]];
      [congruence|..];
      (eexists; split; [reflexivity|]); simpl; intuition. }
  clear Hshape Hdo.
  exists expirationField, fields.
  destruct r as [body|err]; unfold ret;
    (eexists _, c', evs; split; [reflexivity|]);
    (split; [intros Hempty; subst expirationField; rewrite Hempty;
             reflexivity|]);
    (split; [intros Hfull%not_empty; subst expirationField; rewrite Hfull;
             reflexivity|]);
    (split; [apply CreatePaste_fields_expire|]);
    (split; [reflexivity|]); (split; [reflexivity|]);
    (split; [apply CreatePaste_fields_encoded|]);
    intros rq [-> | ->]%Hsent Hurl;
    solve [reflexivity | discriminate Hurl].
Qed.

(** C9: [GetRawPaste] hands the HTTP client one GET for the raw URL of the
    key, without header or body, and nothing else; it has no [Client] at
    all.  A status other than 200 gives an error, a body that starts with
    the error prefix gives an error, and a body that was read with status
    200 and without the prefix comes back as it is. *)
Theorem raw_paste_fetch (E : Env) pasteKey w :
  let answer := round_trip E (sent w) (raw_request pasteKey) in
  snd (GetRawPaste E pasteKey w) = w ++ [EvSend (raw_request pasteKey)]
  /\ raw_request pasteKey
     = {| Method := "GET"; URL := RawUrlPrefix +:+ "/" +:+ pasteKey;
          Header := ∅; ReqBody := EmptyString |}
  /\ (forall response,
        answer = Ok response -> StatusCode response <> 200%Z ->
        is_Err (fst (GetRawPaste E pasteKey w)) = true)
  /\ (forall response body,
        answer = Ok response -> Body response = Ok body ->
        Go.strings_HasPrefix body bad_api_request = true ->
        fst (GetRawPaste E pasteKey w) = Err (errors_New body))
  /\ (forall body,
        answers_200 answer body ->
        Go.strings_HasPrefix body bad_api_request = false ->
        fst (GetRawPaste E pasteKey w) = Ok body).
Proof.
  intros answer. unfold GetRawPaste, client_Get, send.
  fold (raw_request pasteKey). fold answer.
  split; [|split; [reflexivity|repeat split]].
  - destruct answer as [response|err]; [|reflexivity].
    destruct (Body response); [|reflexivity].
    destruct (_ || _); reflexivity.
  - intros response -> Hcode%Z.eqb_neq.
    destruct (Body response); [|reflexivity].
    rewrite Hcode. reflexivity.
  - intros response body -> -> ->. rewrite orb_true_r. reflexivity.
  - intros body (response & -> & -> & ->) ->. reflexivity.
Qed.

(** A method that checks a guard on the receiver and then goes through the
    pipeline once: either the guard returns at once, or the frame of the
    pipeline applies and the continuation is left to show total. *)
Ltac guarded_request Hrefl Hdo c w :=
  unfold bind at 1, this;
  match goal with
  | |- context [if ?guard then _ else _] =>
      destruct guard; [intros [= <- <-]; apply Hrefl|]
  end;
  match goal with
  | |- context [bind ?m ?k c w] =>
      let Hrun := fresh "Hrun" in
      destruct (bind m k c w) as [[[? ?] ?]|] eqn:Hrun; [|discriminate];
      intros [= <- <-]; eapply Hdo; [|exact Hrun]
  end.

(** C10: no operation of a [Client] changes [username], [password] or
    [developerApiKey]; [sessionKey] differs after an operation only if the
    operation entered [login], and then it entered it once; an operation
    that did not enter [login] leaves the receiver as it was.  [NewClient]
    builds the client from its three arguments with an empty session key and
    enters [login] only for a username that is not empty. *)
Theorem only_login_writes_session (E : Env) fuel :
  (forall op c w c' w',
      run E fuel op c w = Some (c', w') ->
      exists evs, w' = w ++ evs /\ session_only_by_login c c' evs)
  /\ (forall user pass key w err c' w',
      NewClient E fuel user pass key w = Some (err, c', w') ->
      username c' = user /\ password c' = pass /\ developerApiKey c' = key
      /\ exists evs,
          w' = w ++ evs
          /\ (sessionKey c' <> EmptyString ->
              user <> EmptyString /\ logins evs = 1)
          /\ (user = EmptyString -> evs = [] /\ err = None)).
Proof.
  assert (Hrefl : forall c w,
             exists evs, w = w ++ evs /\ session_only_by_login c c evs).
  { intros c w. exists []. rewrite app_nil_r.
    unfold session_only_by_login. repeat split; congruence. }
  assert (Hdo : forall A (k : result string -> M A) url f c w x c' w',
             (forall r c1 w1, exists x1, k r c1 w1 = Some (x1, c1, w1)) ->
             bind (doPastebinRequest E fuel 0 url f true) k c w
             = Some (x, c', w') ->
             exists evs, w' = w ++ evs /\ session_only_by_login c c' evs).
  { intros A k url f c w x c' w' Hk. unfold bind.
    destruct (doPastebinRequest E fuel 0 url f true c w)
      as [[[r c1] w1]|] eqn:Hrun; [|discriminate].
    destruct (Hk r c1 w1) as (x1 & ->). intros [= _ <- <-].
    eapply doPastebinRequest_frame, Hrun. }
  split.
  - intros op c w c' w'. unfold run, forget.
    destruct op as [|url f b|request|pasteKey| |pasteKey| ].
    + destruct (login E fuel 0 c w) as [[[err c1] w1]|] eqn:Hrun;
        [|discriminate].
      intros [= <- <-]. eapply login_frame, Hrun.
    + destruct (doPastebinRequest E fuel 0 url f b c w)
        as [[[r c1] w1]|] eqn:Hrun; [|discriminate].
      intros [= <- <-]. eapply doPastebinRequest_frame, Hrun.
    + unfold CreatePaste. guarded_request Hrefl Hdo c w.
      intros [body|err] c2 w2; eexists; reflexivity.
    + unfold DeletePaste. guarded_request Hrefl Hdo c w.
      intros [body|err] c2 w2; eexists; reflexivity.
    + unfold ListUserPastes. guarded_request Hrefl Hdo c w.
      intros [body|err] c2 w2; [|eexists; reflexivity].
      destruct (xml_Unmarshal E _); eexists; reflexivity.
    + unfold GetRawUserPaste. guarded_request Hrefl Hdo c w.
      intros [body|err] c2 w2; eexists; reflexivity.
    + unfold GetRecentPastes. guarded_request Hrefl Hdo c w.
      intros [body|err] c2 w2; [|eexists; reflexivity].
      destruct (json_Unmarshal E _); eexists; reflexivity.
  - intros user pass key w err c' w'. unfold NewClient.
    destruct (Go.is_empty user) eqn:Huser; simpl.
    + apply is_empty_true in Huser as ->.
      intros [= <- <- <-]. simpl. repeat split.
      exists []. rewrite app_nil_r. repeat split; intros; congruence.
    + intros (evs & -> & Hu & Hp & Hk & Hs & _)%login_frame.
      simpl in *. repeat split; try assumption.
      exists evs. split; [reflexivity|].
      assert (user <> EmptyString) by (intros ->; discriminate).
      split; [|congruence].
      intros Hne. split; [assumption|]. apply Hs. exact Hne.
Qed.

(** With three units of fuel every operation returns. *)
Lemma run_returns (E : Env) n op c w :
  exists c' w', run E (3 + n) op c w = Some (c', w').
Proof.
  destruct op as [|url f b|request|pasteKey| |pasteKey| ];
    unfold run, forget.
  - change (3 + n) with (S (S (S n))). rewrite login_eq.
    destruct (NewRequest_error E "POST" LoginApiUrl); [eauto|].
    cbv zeta. destruct (read_answer _); eauto.
  - destruct (doPastebinRequest_returns E n 0 url f b c w)
      as (r & c' & w' & ->). eauto.
  - unfold CreatePaste, bind, this, ret.
    destruct (_ && _); [eauto|].
    match goal with
    | |- context [doPastebinRequest E (3 + n) 0 ?url ?f true c w] =>
        destruct (doPastebinRequest_returns E n 0 url f true c w)
          as ([body|err] & c' & w' & ->); eauto
    end.
  - unfold DeletePaste, bind, this, ret.
    destruct (Go.is_empty _); [eauto|].
    destruct (doPastebinRequest_returns E n 0 RawApiUrl
                (DeletePaste_fields c pasteKey) true c w)
      as ([body|err] & c' & w' & ->); eauto.
  - unfold ListUserPastes, bind, this, ret.
    destruct (Go.is_empty _); [eauto|].
    destruct (doPastebinRequest_returns E n 0 PostApiUrl
                (ListUserPastes_fields c) true c w)
      as ([body|err] & c' & w' & ->); [|eauto].
    destruct (xml_Unmarshal E _); eauto.
  - unfold GetRawUserPaste, bind, this, ret.
    destruct (Go.is_empty _); [eauto|].
    destruct (doPastebinRequest_returns E n 0 RawApiUrl
                (GetRawUserPaste_fields c pasteKey) true c w)
      as ([body|err] & c' & w' & ->); eauto.
  - unfold GetRecentPastes, bind, this, ret.
    destruct (Go.is_empty _); [eauto|].
    destruct (doPastebinRequest_returns E n 0 ScrapingApiUrl
                (GetRecentPastes_fields c) true c w)
      as ([body|err] & c' & w' & ->); [|eauto].
    destruct (json_Unmarshal E _); eauto.
Qed.

(** ** The statements at work on sample runs *)

(** A session that has expired: the server refuses the key, accepts the
    login, and refuses the retried request once more. *)
Lemma reauthentication_once_witness :
  let E :=
    sample_env [ok_200 invalid_api_user_key; ok_200 "new";
                ok_200 invalid_api_user_key] in
  let f := DeletePaste_fields alice "k1" in
  NewRequest_error E "POST" RawApiUrl = None
  /\ answers_200 (round_trip E (sent []) (post_request RawApiUrl f))
       invalid_api_user_key
  /\ exists r c' w',
      doPastebinRequest E 3 0 RawApiUrl f true alice [] = Some (r, c', w')
      /\ logins w' = 1 /\ max_depth w' = 1.
Proof.
  intros E f.
  assert (H1 : NewRequest_error E "POST" RawApiUrl = None) by reflexivity.
  assert (H2 : answers_200 (round_trip E (sent []) (post_request RawApiUrl f))
                 invalid_api_user_key).
  { eexists. split; [reflexivity|]. split; reflexivity. }
  split; [exact H1|]. split; [exact H2|].
  destruct (reauthentication_once E 0 RawApiUrl f alice [] H1 H2)
    as (err & c1 & L & r & R & _ & Hdo & Hlogins & Hdepth & _).
  exists r, c1. eexists. split; [exact Hdo|]. split; assumption.
Defined.

(** The same session, with a server that refuses the login as well: the
    call of C1 has its hypotheses, and the request is not retried.  What was
    sent is the request and the login, the call returns the failure of the
    re-authentication, and [doPastebinRequest] is not entered again for the
    request. *)
Lemma failed_login_is_not_retried :
  let E := sample_env [ok_200 invalid_api_user_key; status_401] in
  let f := DeletePaste_fields alice "k1" in
  NewRequest_error E "POST" RawApiUrl = None
  /\ answers_200 (round_trip E (sent []) (post_request RawApiUrl f))
       invalid_api_user_key
  /\ exists w',
      doPastebinRequest E 3 0 RawApiUrl f true alice []
      = Some (Err (errors_New (reauth_failure +:+ "401 Unauthorized")),
              alice, w')
      /\ w' = [EvEnter 0 RawApiUrl f true; EvSend (post_request RawApiUrl f);
               EvPrint reauth_notice; EvLogin;
               EvEnter 1 LoginApiUrl (login_fields alice) false;
               EvSend (post_request LoginApiUrl (login_fields alice))]
      /\ logins w' = 1
      /\ sent w' = [post_request RawApiUrl f;
                    post_request LoginApiUrl (login_fields alice)]
      /\ ~ In (EvEnter 1 RawApiUrl f false) w'.
Proof.
  intros E f.
  split; [reflexivity|].
  split; [eexists; split; [reflexivity|]; split; reflexivity|].
  eexists. split; [|split; [reflexivity|]].
  - vm_compute. reflexivity.
  - split; [reflexivity|]. split; [reflexivity|].
    simpl. intros [H|[H|[H|[H|[H|[H|[]]]]]]]; discriminate H.
Qed.

Lemma retry_keeps_stale_fields_witness :
  let E :=
    sample_env [ok_200 invalid_api_user_key; ok_200 "new";
                ok_200 "deleted"] in
  let f := DeletePaste_fields alice "k1" in
  NewRequest_error E "POST" RawApiUrl = None
  /\ NewRequest_error E "POST" LoginApiUrl = None
  /\ answers_200 (round_trip E (sent []) (post_request RawApiUrl f))
       invalid_api_user_key
  /\ answers_200
       (round_trip E (sent [] ++ [post_request RawApiUrl f])
          (post_request LoginApiUrl (login_fields alice))) "new"
  /\ Go.strings_HasPrefix "new" bad_api_request = false
  /\ f !! "api_user_key" = Some [sessionKey alice]
  /\ exists r c' w',
      doPastebinRequest E 3 0 RawApiUrl f true alice [] = Some (r, c', w')
      /\ sessionKey c' = "new"
      /\ f !! "api_user_key" = Some ["old"].
Proof.
  intros E f.
  assert (H1 : NewRequest_error E "POST" RawApiUrl = None) by reflexivity.
  assert (H2 : NewRequest_error E "POST" LoginApiUrl = None) by reflexivity.
  assert (H3 : answers_200 (round_trip E (sent []) (post_request RawApiUrl f))
                 invalid_api_user_key).
  { eexists. split; [reflexivity|]. split; reflexivity. }
  assert (H4 : answers_200
                 (round_trip E (sent [] ++ [post_request RawApiUrl f])
                    (post_request LoginApiUrl (login_fields alice))) "new").
  { eexists. split; [reflexivity|]. split; reflexivity. }
  assert (H5 : Go.strings_HasPrefix "new" bad_api_request = false)
    by reflexivity.
  assert (H6 : f !! "api_user_key" = Some [sessionKey alice])
    by apply DeletePaste_fields_key.
  repeat (split; [assumption|]).
  destruct (retry_keeps_stale_fields E 0 RawApiUrl f alice [] "new"
              H1 H2 H3 H4 H5 H6)
    as (r & c' & f' & Hdo & -> & Hkey & Hold & _).
  exists r, c'. eexists. split; [exact Hdo|]. split; [exact Hkey|exact Hold].
Defined.

Lemma session_required_witness :
  sessionKey guest = EmptyString
  /\ DeletePaste (sample_env []) 3 "k1" guest []
     = Some (Some ErrNotAuthenticated, guest, [])
  /\ ListUserPastes (sample_env []) 3 guest []
     = Some (Err ErrNotAuthenticated, guest, []).
Proof.
  assert (H : sessionKey guest = EmptyString) by reflexivity.
  split; [exact H|].
  destruct (session_required (sample_env []) 3 "k1" sample_request guest [] H)
    as (Hdelete & Hlist & _).
  split; assumption.
Defined.

Lemma recent_pastes_raw_body_witness :
  let E := sample_env [ok_200 "[]"] in
  let quote := String (Ascii.ascii_of_nat 34) EmptyString in
  exists w',
    sessionKey alice <> EmptyString
    /\ doPastebinRequest E 3 0 ScrapingApiUrl (GetRecentPastes_fields alice)
         true alice []
       = Some (Ok "[]", alice, w')
    /\ json_Unmarshal E
         ("{" +:+ quote +:+ "pastes" +:+ quote +:+ ":" +:+ "[]" +:+ "}")
       = Ok []
    /\ GetRecentPastes E 3 alice [] = Some (Ok "[]", alice, w').
Proof.
  intros E quote. eexists.
  assert (H1 : sessionKey alice <> EmptyString) by discriminate.
  split; [exact H1|].
  assert (H2 : doPastebinRequest E 3 0 ScrapingApiUrl
                 (GetRecentPastes_fields alice) true alice []
               = Some (Ok "[]", alice,
                       [EvEnter 0 ScrapingApiUrl
                          (GetRecentPastes_fields alice) true;
                        EvSend (post_request ScrapingApiUrl
                                  (GetRecentPastes_fields alice))]))
    by reflexivity.
  split; [exact H2|].
  assert (H3 : json_Unmarshal E
                 ("{" +:+ quote +:+ "pastes" +:+ quote +:+ ":" +:+ "[]"
                  +:+ "}")
               = Ok []) by reflexivity.
  split; [exact H3|].
  exact (proj1 (recent_pastes_raw_body E 3 alice [] "[]" alice _ H1 H2)
           [] H3).
Defined.

Lemma api_error_verbatim_witness :
  let E := sample_env [ok_200 "Bad API request, invalid api_dev_key"] in
  let f : Values := GetRecentPastes_fields alice in
  NewRequest_error E "POST" ScrapingApiUrl = None
  /\ answers_200 (round_trip E (sent []) (post_request ScrapingApiUrl f))
       "Bad API request, invalid api_dev_key"
  /\ Go.strings_HasPrefix "Bad API request, invalid api_dev_key"
       bad_api_request = true
  /\ (true = true ->
      "Bad API request, invalid api_dev_key" <> invalid_api_user_key)
  /\ exists err,
      doPastebinRequest E 1 0 ScrapingApiUrl f true alice []
      = Some (Err err, alice,
              [] ++ [EvEnter 0 ScrapingApiUrl f true;
                     EvSend (post_request ScrapingApiUrl f)])
      /\ Error err = "Bad API request, invalid api_dev_key".
Proof.
  intros E f.
  assert (H1 : NewRequest_error E "POST" ScrapingApiUrl = None)
    by reflexivity.
  assert (H2 : answers_200
                 (round_trip E (sent []) (post_request ScrapingApiUrl f))
                 "Bad API request, invalid api_dev_key").
  { eexists. split; [reflexivity|]. split; reflexivity. }
  assert (H3 : Go.strings_HasPrefix "Bad API request, invalid api_dev_key"
                 bad_api_request = true) by reflexivity.
  assert (H4 : true = true ->
               "Bad API request, invalid api_dev_key" <> invalid_api_user_key)
    by (intros _; discriminate).
  repeat (split; [assumption|]).
  exact (api_error_verbatim E 0 0 ScrapingApiUrl f true alice [] _
           H1 H2 H3 H4).
Defined.

Lemma list_user_pastes_records_witness :
  let E := sample_env [ok_200 "<paste>a</paste><paste>b</paste>"] in
  let w' :=
    [EvEnter 0 PostApiUrl (ListUserPastes_fields alice) true;
     EvSend (post_request PostApiUrl (ListUserPastes_fields alice))] in
  sessionKey alice <> EmptyString
  /\ doPastebinRequest E 3 0 PostApiUrl (ListUserPastes_fields alice) true
       alice []
     = Some (Ok "<paste>a</paste><paste>b</paste>", alice, w')
  /\ xml_Unmarshal E
       ("<pastes>" +:+ "<paste>a</paste><paste>b</paste>" +:+ "</pastes>")
     = Ok [sample_xmlPaste "a"; sample_xmlPaste "b"]
  /\ exists pastes,
      ListUserPastes E 3 alice [] = Some (Ok pastes, alice, w')
      /\ length pastes = 2
      /\ Forall (fun paste => paste_user paste = "alice") pastes.
Proof.
  intros E w'.
  assert (H1 : sessionKey alice <> EmptyString) by discriminate.
  assert (H2 : doPastebinRequest E 3 0 PostApiUrl
                 (ListUserPastes_fields alice) true alice []
               = Some (Ok "<paste>a</paste><paste>b</paste>", alice, w'))
    by reflexivity.
  assert (H3 : xml_Unmarshal E
                 ("<pastes>" +:+ "<paste>a</paste><paste>b</paste>"
                  +:+ "</pastes>")
               = Ok [sample_xmlPaste "a"; sample_xmlPaste "b"])
    by reflexivity.
  repeat (split; [assumption|]).
  destruct (list_user_pastes_records E 3 alice [] _ alice w' _ H1 H2 H3)
    as (pastes & Hlist & Hlen & _ & Howner).
  exists pastes. split; [exact Hlist|]. split; [exact Hlen|exact Howner].
Defined.

Lemma create_paste_key_witness :
  let E := sample_env [ok_200 "https://pastebin.com/abc123"] in
  let fields := CreatePaste_fields guest sample_request (ExpirationNever E) in
  let w' :=
    [EvEnter 0 PostApiUrl fields true;
     EvSend (post_request PostApiUrl fields)] in
  CreatePaste E 3 sample_request guest [] = Some (Ok "abc123", guest, w')
  /\ exists body,
      "abc123" = Go.strings_TrimPrefix body "https://pastebin.com/".
Proof.
  intros E fields w'.
  assert (H : CreatePaste E 3 sample_request guest []
              = Some (Ok "abc123", guest, w')) by reflexivity.
  split; [exact H|].
  destruct (create_paste_key E 3 sample_request guest [] "abc123" guest w' H)
    as (body & expirationField & _ & Hkey & _).
  exists body. exact Hkey.
Defined.

Lemma create_paste_expiration_witness :
  let E := sample_env [ok_200 "https://pastebin.com/abc123"] in
  NewRequest_error E "POST" PostApiUrl = None
  /\ (Visibility sample_request = VisibilityPrivate E ->
      sessionKey guest <> EmptyString)
  /\ Expiration sample_request = EmptyString
  /\ exists fields r c' evs,
      CreatePaste E 3 sample_request guest []
      = Some (r, c',
              [] ++ EvEnter 0 PostApiUrl fields true
                :: EvSend (post_request PostApiUrl fields) :: evs)
      /\ fields !! "api_paste_expire_date" = Some ["N"]
      /\ ReqBody (post_request PostApiUrl fields)
         = "api_dev_key=dev&api_option=paste&api_paste_code=c&api_paste_expire_date=N&api_paste_format=go&api_paste_name=t&api_paste_private=0&api_user_key=".
Proof.
  intros E.
  assert (H1 : NewRequest_error E "POST" PostApiUrl = None) by reflexivity.
  assert (H2 : Visibility sample_request = VisibilityPrivate E ->
               sessionKey guest <> EmptyString)
    by (intros H; discriminate H).
  assert (H3 : Expiration sample_request = EmptyString) by reflexivity.
  split; [exact H1|]. split; [exact H2|]. split; [exact H3|].
  destruct (create_paste_expiration E 0 sample_request guest [] H1 H2)
    as (expirationField & fields & r & c' & evs
        & Hrun & Hnever & _ & Hfield & _ & _ & Hbody & _).
  exists fields, r, c', evs. split; [exact Hrun|].
  rewrite (Hnever H3) in Hfield, Hbody.
  split; [exact Hfield | exact Hbody].
Defined.

(** A private paste without expiration on a client without session key:
    the request of C8 has its condition (an empty [Expiration]), and
    [CreatePaste] returns [ErrNotAuthenticated] at once, for every fuel,
    with the client and the world as they were: no request goes out, so
    none carries the token. *)
Lemma private_guest_paste_sends_nothing :
  let E := sample_env [ok_200 "https://pastebin.com/abc123"] in
  let request :=
    {| Title := "t"; Code := "c"; Syntax := "go"; Visibility := 2;
       Expiration := EmptyString |} in
  Expiration request = EmptyString
  /\ Visibility request = VisibilityPrivate E
  /\ sessionKey guest = EmptyString
  /\ forall fuel,
      CreatePaste E fuel request guest []
      = Some (Err ErrNotAuthenticated, guest, [])
      /\ sent [] = []
      /\ ~ exists r c' w' rq,
            CreatePaste E fuel request guest [] = Some (r, c', w')
            /\ In rq (sent w').
Proof.
  intros E request.
  split; [reflexivity|]. split; [reflexivity|]. split; [reflexivity|].
  intros fuel.
  assert (H : CreatePaste E fuel request guest []
              = Some (Err ErrNotAuthenticated, guest, [])) by reflexivity.
  split; [exact H|]. split; [reflexivity|].
  intros (r & c' & w' & rq & Hrun & Hin).
  rewrite H in Hrun. injection Hrun as _ _ <-. destruct Hin.
Qed.

Lemma raw_paste_fetch_witness :
  let E := sample_env [ok_200 "hello"] in
  answers_200 (round_trip E (sent []) (raw_request "abc123")) "hello"
  /\ Go.strings_HasPrefix "hello" bad_api_request = false
  /\ fst (GetRawPaste E "abc123" []) = Ok "hello"
  /\ snd (GetRawPaste E "abc123" []) = [] ++ [EvSend (raw_request "abc123")].
Proof.
  intros E.
  assert (H1 : answers_200 (round_trip E (sent []) (raw_request "abc123"))
                 "hello").
  { eexists. split; [reflexivity|]. split; reflexivity. }
  assert (H2 : Go.strings_HasPrefix "hello" bad_api_request = false)
    by reflexivity.
  split; [exact H1|]. split; [exact H2|].
  destruct (raw_paste_fetch E "abc123" []) as (Hsend & _ & _ & _ & Hbody).
  split; [exact (Hbody "hello" H1 H2) | exact Hsend].
Defined.

Lemma only_login_writes_session_witness :
  let E :=
    sample_env [ok_200 invalid_api_user_key; ok_200 "new";
                ok_200 "deleted"] in
  exists c' w',
    run E 3 (OpDeletePaste "k1") alice [] = Some (c', w')
    /\ exists evs, w' = [] ++ evs /\ session_only_by_login alice c' evs.
Proof.
  intros E.
  exists (set_sessionKey "new" alice). eexists.
  assert (H : run E 3 (OpDeletePaste "k1") alice []
              = Some (set_sessionKey "new" alice,
                      [EvEnter 0 RawApiUrl (DeletePaste_fields alice "k1") true;
                       EvSend (post_request RawApiUrl
                                 (DeletePaste_fields alice "k1"));
                       EvPrint reauth_notice; EvLogin;
                       EvEnter 1 LoginApiUrl (login_fields alice) false;
                       EvSend (post_request LoginApiUrl (login_fields alice));
                       EvEnter 1 RawApiUrl (DeletePaste_fields alice "k1")
                         false;
                       EvSend (post_request RawApiUrl
                                 (DeletePaste_fields alice "k1"))]))
    by reflexivity.
  split; [exact H|].
  exact (proj1 (only_login_writes_session E 3) _ _ _ _ _ H).
Defined.

(** * Further properties of the client *)

(** ** One exchange *)

Lemma read_answer_Ok a body :
  read_answer a = Ok body ->
  answers_200 a body /\ Go.strings_HasPrefix body bad_api_request = false.
Proof.
  unfold read_answer, answers_200.
  destruct a as [response|err]; [|discriminate].
  destruct (StatusCode response =? 200)%Z eqn:H200; [|discriminate].
  apply Z.eqb_eq in H200. simpl.
  destruct (Body response) as [b|err] eqn:HB; [|discriminate].
  destruct (Go.strings_HasPrefix b bad_api_request) eqn:Hpre; [discriminate|].
  intros [= <-]. split; [|exact Hpre]. exists response. auto.
Qed.

(** A status other than 200 comes back as an error whose text is the
    status line.  The body is not looked at: one request is sent and no
    re-authentication starts, whatever the body says and whether the flag
    is set or not. *)
Theorem status_error_is_status_line (E : Env) n d url f reAuth c w response :
  NewRequest_error E "POST" url = None ->
  round_trip E (sent w) (post_request url f) = Ok response ->
  StatusCode response <> 200%Z ->
  doPastebinRequest E (S n) d url f reAuth c w
  = Some (Err (errors_New (Status response)), c,
          w ++ [EvEnter d url f reAuth; EvSend (post_request url f)]).
Proof.
  intros HN Hr Hcode%Z.eqb_neq.
  rewrite doPastebinRequest_direct; [|assumption|].
  - rewrite Hr. unfold read_answer. rewrite Hcode. reflexivity.
  - rewrite Hr. unfold wants_reauth. rewrite Hcode. apply andb_false_r.
Qed.

(** An exchange is retried only after status 200 with exactly the
    invalid-session text.  On every other answer, with the flag set, the
    pipeline sends its one request and returns: the receiver is untouched,
    [login] is not entered, nothing is printed, and the error of a failed
    transport comes back as it is. *)
Theorem other_answers_not_retried (E : Env) n d url f c w :
  NewRequest_error E "POST" url = None ->
  ~ answers_200 (round_trip E (sent w) (post_request url f))
      invalid_api_user_key ->
  exists r,
    doPastebinRequest E (S n) d url f true c w
    = Some (r, c, w ++ [EvEnter d url f true; EvSend (post_request url f)])
    /\ (forall err,
          round_trip E (sent w) (post_request url f) = Err err -> r = Err err)
    /\ (forall body, r = Ok body ->
          answers_200 (round_trip E (sent w) (post_request url f)) body).
Proof.
  intros HN Hno.
  assert (Hre : wants_reauth (round_trip E (sent w) (post_request url f))
                = false).
  { destruct (wants_reauth _) eqn:Hw; [|reflexivity].
    apply wants_reauth_200 in Hw. contradiction. }
  eexists. split; [apply doPastebinRequest_direct; [assumption|]|].
  - rewrite Hre. reflexivity.
  - split.
    + intros err ->. reflexivity.
    + intros body Hbody%read_answer_Ok. apply Hbody.
Qed.

(** Whatever the pipeline returns as a body does not start with the error
    prefix, and the value [GetRawUserPaste], [GetRecentPastes] and
    [GetRawPaste] return is such a body: none of them ever hands its caller
    a text starting with [Bad API request], so a paste with such a content
    cannot be read through them. *)
Theorem returned_body_never_error_prefixed (E : Env) fuel :
  (forall d url f reAuth c w body c' w',
      doPastebinRequest E fuel d url f reAuth c w = Some (Ok body, c', w') ->
      Go.strings_HasPrefix body bad_api_request = false)
  /\ (forall pasteKey c w content c' w',
      GetRawUserPaste E fuel pasteKey c w = Some (Ok content, c', w') ->
      Go.strings_HasPrefix content bad_api_request = false)
  /\ (forall c w content c' w',
      GetRecentPastes E fuel c w = Some (Ok content, c', w') ->
      Go.strings_HasPrefix content bad_api_request = false)
  /\ (forall pasteKey w content,
      fst (GetRawPaste E pasteKey w) = Ok content ->
      Go.strings_HasPrefix content bad_api_request = false).
Proof.
  assert (Hpipe : forall d url f reAuth c w body c' w',
             doPastebinRequest E fuel d url f reAuth c w
             = Some (Ok body, c', w') ->
             Go.strings_HasPrefix body bad_api_request = false).
  { intros d url f reAuth c w body c' w'.
    destruct fuel as [|n]; [discriminate|].
    destruct (NewRequest_error E "POST" url) as [err|] eqn:HN.
    { simpl. unfold bind, emit, http_NewRequest. rewrite HN. discriminate. }
    destruct (reAuth && wants_reauth
                (round_trip E (sent w) (post_request url f))) eqn:Hre.
    2:{ rewrite doPastebinRequest_direct by assumption.
        intros [= Hbody%read_answer_Ok _ _]. apply Hbody. }
    apply andb_true_iff in Hre as [-> Hre].
    rewrite doPastebinRequest_reauth by assumption.
    destruct n as [|[|n]]; [discriminate..|].
    rewrite login_eq.
    destruct (NewRequest_error E "POST" LoginApiUrl); [discriminate|].
    cbv zeta. destruct (read_answer _) as [k|err]; [|discriminate].
    rewrite doPastebinRequest_plain, HN.
    intros [= Hbody%read_answer_Ok _ _]. apply Hbody. }
  split; [exact Hpipe|]. split; [|split].
  - intros pasteKey c w content c' w'.
    unfold GetRawUserPaste, bind, this, ret.
    destruct (Go.is_empty _); [discriminate|].
    destruct (doPastebinRequest E fuel 0 RawApiUrl _ true c w)
      as [[[[body|err] c1] w1]|] eqn:Hrun; [|discriminate..].
    intros [= <- <- <-]. eapply Hpipe, Hrun.
  - intros c w content c' w'.
    unfold GetRecentPastes, bind, this, ret.
    destruct (Go.is_empty _); [discriminate|].
    destruct (doPastebinRequest E fuel 0 ScrapingApiUrl _ true c w)
      as [[[[body|err] c1] w1]|] eqn:Hrun; [|discriminate..].
    destruct (json_Unmarshal E _); [|discriminate].
    intros [= <- <- <-]. eapply Hpipe, Hrun.
  - intros pasteKey w content.
    unfold GetRawPaste, client_Get, send.
    destruct (round_trip E _ _) as [response|err]; [|discriminate].
    destruct (Body response) as [body|err]; [|discriminate].
    destruct (negb _); [discriminate|]. simpl.
    destruct (Go.strings_HasPrefix body bad_api_request) eqn:Hpre;
      [discriminate|].
    intros [= <-]. exact Hpre.
Qed.

(** ** [login] and [NewClient] *)

(** A successful [login] stores the body of the answer as the session key,
    as it is, and changes nothing else; it sends one request, the login
    form to the login endpoint, and that form carries no session key. *)
Theorem login_stores_body (E : Env) n d c w k :
  NewRequest_error E "POST" LoginApiUrl = None ->
  answers_200
    (round_trip E (sent w) (post_request LoginApiUrl (login_fields c))) k ->
  Go.strings_HasPrefix k bad_api_request = false ->
  login E (2 + n) d c w
  = Some (None, set_sessionKey k c,
          w ++ [EvLogin; EvEnter d LoginApiUrl (login_fields c) false;
                EvSend (post_request LoginApiUrl (login_fields c))])
  /\ login_fields c !! "api_user_name" = Some [username c]
  /\ login_fields c !! "api_user_password" = Some [password c]
  /\ login_fields c !! "api_dev_key" = Some [developerApiKey c]
  /\ login_fields c !! "api_user_key" = None.
Proof.
  intros HN Hanswer Hpre.
  change (2 + n) with (S (S n)).
  rewrite login_eq, HN. cbv zeta.
  rewrite (read_answer_200 _ _ Hanswer), Hpre.
  split; [reflexivity|].
  unfold login_fields. simpl. by simplify_map_eq.
Qed.

(** A [login] that is answered with an error text fails with that text and
    leaves the receiver as it was, old session key included.  It never
    re-authenticates: when the login endpoint itself answers with the
    invalid-session text, that text is the error and one request was
    sent. *)
Theorem login_failure_keeps_client (E : Env) n d c w body :
  NewRequest_error E "POST" LoginApiUrl = None ->
  answers_200
    (round_trip E (sent w) (post_request LoginApiUrl (login_fields c)))
    body ->
  Go.strings_HasPrefix body bad_api_request = true ->
  login E (2 + n) d c w
  = Some (Some (errors_New body), c,
          w ++ [EvLogin; EvEnter d LoginApiUrl (login_fields c) false;
                EvSend (post_request LoginApiUrl (login_fields c))]).
Proof.
  intros HN Hanswer Hpre.
  change (2 + n) with (S (S n)).
  rewrite login_eq, HN. cbv zeta.
  rewrite (read_answer_200 _ _ Hanswer), Hpre. reflexivity.
Qed.

(** [NewClient] with a username logs in once.  If the login succeeds the
    client holds the body as session key; if it fails, the client is
    returned all the same, next to the error, with its three credentials
    and an empty session key. *)
Theorem NewClient_logs_in (E : Env) n user pass key w :
  user <> EmptyString ->
  NewRequest_error E "POST" LoginApiUrl = None ->
  let fresh :=
    {| username := user; password := pass; developerApiKey := key;
       sessionKey := EmptyString |} in
  let request := post_request LoginApiUrl (login_fields fresh) in
  let w' := w ++ [EvLogin; EvEnter 0 LoginApiUrl (login_fields fresh) false;
                  EvSend request] in
  (forall k,
      answers_200 (round_trip E (sent w) request) k ->
      Go.strings_HasPrefix k bad_api_request = false ->
      NewClient E (2 + n) user pass key w
      = Some (None,
              {| username := user; password := pass; developerApiKey := key;
                 sessionKey := k |}, w'))
  /\ (forall err,
      read_answer (round_trip E (sent w) request) = Err err ->
      NewClient E (2 + n) user pass key w = Some (Some err, fresh, w')).
Proof.
  intros Huser%not_empty HN fresh request w'. subst fresh request w'.
  unfold NewClient. rewrite Huser. cbn [negb].
  change (2 + n) with (S (S n)).
  rewrite login_eq, HN. cbv zeta.
  split.
  - intros k Hanswer Hpre.
    rewrite (read_answer_200 _ _ Hanswer), Hpre. reflexivity.
  - intros err Herr. rewrite Herr. reflexivity.
Qed.

(** A login that is answered with status 200 and an empty body counts as a
    success, and the client it gives is not authenticated: [NewClient]
    returns a nil error, and the methods that need a session return
    [ErrNotAuthenticated] on that client without sending anything. *)
Theorem empty_login_body_is_no_session (E : Env) n user pass key w :
  user <> EmptyString ->
  NewRequest_error E "POST" LoginApiUrl = None ->
  answers_200
    (round_trip E (sent w)
       (post_request LoginApiUrl
          (login_fields
             {| username := user; password := pass; developerApiKey := key;
                sessionKey := EmptyString |})))
    EmptyString ->
  exists c' w',
    NewClient E (2 + n) user pass key w = Some (None, c', w')
    /\ forall fuel pasteKey,
        DeletePaste E fuel pasteKey c' w'
        = Some (Some ErrNotAuthenticated, c', w')
        /\ ListUserPastes E fuel c' w' = Some (Err ErrNotAuthenticated, c', w')
        /\ GetRawUserPaste E fuel pasteKey c' w'
           = Some (Err ErrNotAuthenticated, c', w')
        /\ GetRecentPastes E fuel c' w'
           = Some (Err ErrNotAuthenticated, c', w').
Proof.
  intros Huser%not_empty HN Hanswer.
  unfold NewClient. rewrite Huser. cbn [negb].
  change (2 + n) with (S (S n)).
  rewrite login_eq, HN. cbv zeta.
  rewrite (read_answer_200 _ _ Hanswer).
  eexists _, _. split; [reflexivity|].
  intros fuel pasteKey. repeat split.
Qed.

(** ** Every operation, through the pipeline *)

(** The shape of every run of [login] that returns. *)
Lemma login_shape (E : Env) fuel d c w err c' w' :
  login E fuel d c w = Some (err, c', w') ->
  exists L,
    w' = w ++ EvLogin :: EvEnter d LoginApiUrl (login_fields c) false :: L
    /\ (L = [] \/ L = [EvSend (post_request LoginApiUrl (login_fields c))])
    /\ (c' = c
        \/ exists k,
            c' = set_sessionKey k c
            /\ Go.strings_HasPrefix k bad_api_request = false).
Proof.
  destruct fuel as [|[|n]]; [discriminate..|].
  rewrite login_eq.
  destruct (NewRequest_error E "POST" LoginApiUrl).
  - intros [= <- <- <-]. exists []. auto.
  - cbv zeta. destruct (read_answer _) as [k|e] eqn:Hread;
      intros [= <- <- <-]; eexists; (split; [reflexivity|]); split; auto.
    right. exists k. split; [reflexivity|].
    apply read_answer_Ok in Hread. apply Hread.
Qed.

(** The session key the pipeline leaves is the old one or a body that
    [login] accepted. *)
Lemma doPastebinRequest_key (E : Env) fuel d url f reAuth c w r c' w' :
  doPastebinRequest E fuel d url f reAuth c w = Some (r, c', w') ->
  c' = c
  \/ exists k,
      c' = set_sessionKey k c
      /\ Go.strings_HasPrefix k bad_api_request = false.
Proof.
  destruct fuel as [|n]; [discriminate|].
  destruct (NewRequest_error E "POST" url) as [err|] eqn:HN.
  { simpl. unfold bind, emit, http_NewRequest. rewrite HN.
    intros [= <- <- <-]. auto. }
  destruct (reAuth && wants_reauth
              (round_trip E (sent w) (post_request url f))) eqn:Hre.
  2:{ rewrite doPastebinRequest_direct by assumption.
      intros [= <- <- <-]. auto. }
  apply andb_true_iff in Hre as [-> Hre].
  rewrite doPastebinRequest_reauth by assumption.
  destruct (login E n (S d) c _) as [[[[err|] c1] w1]|] eqn:Hlogin;
    [| |discriminate];
    apply login_shape in Hlogin as (L & _ & _ & Hkey).
  - intros [= <- <- <-]. exact Hkey.
  - destruct n as [|n]; [discriminate|].
    rewrite doPastebinRequest_plain.
    destruct (NewRequest_error E "POST" url); intros [= <- <- <-];
      exact Hkey.
Qed.

(** An operation that checks its guard and then calls the pipeline. *)
Ltac through_pipeline :=
  unfold bind at 1, this;
  match goal with
  | |- context [if ?guard then _ else _] =>
      destruct guard; [intros [= <- <-]; left; auto|]
  end;
  unfold bind, ret;
  match goal with
  | |- context [doPastebinRequest ?E ?fuel 0 ?url ?f true ?c ?w] =>
      let Hrun := fresh "Hrun" in
      destruct (doPastebinRequest E fuel 0 url f true c w)
        as [[[[?|?] ?] ?]|] eqn:Hrun; [| |discriminate];
      repeat match goal with
        | |- context [xml_Unmarshal ?E ?doc] => destruct (xml_Unmarshal E doc)
        | |- context [json_Unmarshal ?E ?doc] =>
            destruct (json_Unmarshal E doc)
        end;
      intros [= <- <-]; right; right;
      eexists _, _, _, _; (split; [reflexivity|exact Hrun])
  end.

(** Every run of an operation is a guard that returned at once, a run of
    [login], or one run of the pipeline on the operation's own form. *)
Lemma run_cases (E : Env) fuel op c w c' w' :
  run E fuel op c w = Some (c', w') ->
  (is_method op = true /\ c' = c /\ w' = w)
  \/ (op = OpLogin /\ exists err, login E fuel 0 c w = Some (err, c', w'))
  \/ (exists url f b r,
        pipeline_call E op c = Some (url, f, b)
        /\ doPastebinRequest E fuel 0 url f b c w = Some (r, c', w')).
Proof.
  unfold run, forget.
  destruct op as [|url f b|request|pasteKey| |pasteKey| ].
  - destruct (login E fuel 0 c w) as [[[err c1] w1]|] eqn:Hrun;
      [|discriminate].
    intros [= <- <-]. right. left. eauto.
  - destruct (doPastebinRequest E fuel 0 url f b c w)
      as [[[r c1] w1]|] eqn:Hrun; [|discriminate].
    intros [= <- <-]. right. right. exists url, f, b, r. auto.
  - unfold CreatePaste. through_pipeline.
  - unfold DeletePaste. through_pipeline.
  - unfold ListUserPastes. through_pipeline.
  - unfold GetRawUserPaste. through_pipeline.
  - unfold GetRecentPastes. through_pipeline.
Qed.

(** No operation hands more than three requests to the HTTP client (the
    request, the login and the retry), enters [login] more than once or
    nests the pipeline more than one deep; [login] alone sends one request
    at most. *)
Theorem operation_sends_at_most_three (E : Env) fuel op c w c' w' :
  run E fuel op c w = Some (c', w') ->
  exists evs,
    w' = w ++ evs
    /\ length (sent evs) <= 3
    /\ logins evs <= 1
    /\ max_depth evs <= 1
    /\ (op = OpLogin -> length (sent evs) <= 1).
Proof.
  intros [(_ & -> & ->) | [(-> & err & Hrun) | (url & f & b & r & Hcall & Hrun)]]
    %run_cases.
  - exists []. rewrite app_nil_r. simpl. repeat split; lia.
  - apply login_shape in Hrun as (L & -> & [-> | ->] & _);
      eexists; (split; [reflexivity|]); simpl; repeat split; lia.
  - apply doPastebinRequest_shape in Hrun.
    assert (op <> OpLogin) by (intros ->; discriminate).
    destruct Hrun as [[_ [[_ ->] | ->]]
                     | [_ (L & -> & [[_ [-> | ->]] | (k & _ & ->)])]];
      eexists; (split; [reflexivity|]); simpl;
      (repeat split; [lia..|intros; congruence]).
Qed.

(** The only line the client ever prints is the re-authentication notice,
    and an operation other than [login] prints it once for each [login] it
    enters: never without a re-authentication, never twice. *)
Theorem notice_once_per_reauthentication (E : Env) fuel op c w c' w' :
  op <> OpLogin ->
  run E fuel op c w = Some (c', w') ->
  exists evs,
    w' = w ++ evs /\ printed evs = repeat reauth_notice (logins evs).
Proof.
  intros Hop
    [(_ & -> & ->) | [(-> & _) | (url & f & b & r & Hcall & Hrun)]]%run_cases.
  - exists []. rewrite app_nil_r. auto.
  - contradiction.
  - apply doPastebinRequest_shape in Hrun.
    destruct Hrun as [[_ [[_ ->] | ->]]
                     | [_ (L & -> & [[_ [-> | ->]] | (k & _ & ->)])]];
      eexists; (split; [reflexivity|]); reflexivity.
Qed.

(** The form of a method never has the fields of the credentials. *)
Lemma method_form_no_credentials (E : Env) op c url f b :
  is_method op = true ->
  pipeline_call E op c = Some (url, f, b) ->
  url <> LoginApiUrl
  /\ f !! "api_user_name" = None
  /\ f !! "api_user_password" = None
  /\ f !! "api_user_key" = Some [sessionKey c]
  /\ f !! "api_dev_key" = Some [developerApiKey c].
Proof.
  destruct op; try discriminate; intros _ [= <- <- <-];
    (split; [discriminate|]);
    unfold CreatePaste_fields, DeletePaste_fields, ListUserPastes_fields,
      GetRawUserPaste_fields, GetRecentPastes_fields; simpl;
    by simplify_map_eq.
Qed.

(** The username and the password leave the client in the login form only,
    addressed to the login endpoint.  Every request a method sends is
    either the login form, or the method's own form to the method's own
    endpoint; that form has no [api_user_name] and no [api_user_password]
    field, and it carries the session key and the developer key the
    receiver had when the method was called. *)
Theorem credentials_only_to_login (E : Env) fuel op c w c' w' :
  is_method op = true ->
  run E fuel op c w = Some (c', w') ->
  exists url f evs,
    pipeline_call E op c = Some (url, f, true)
    /\ w' = w ++ evs
    /\ url <> LoginApiUrl
    /\ f !! "api_user_name" = None
    /\ f !! "api_user_password" = None
    /\ f !! "api_user_key" = Some [sessionKey c]
    /\ f !! "api_dev_key" = Some [developerApiKey c]
    /\ forall request,
        In request (sent evs) ->
        request = post_request url f
        \/ request = post_request LoginApiUrl (login_fields c).
Proof.
  intros Hop Hrun.
  assert (exists url f, pipeline_call E op c = Some (url, f, true))
    as (url & f & Hcall)
    by (destruct op; try discriminate; eexists _, _; reflexivity).
  destruct (method_form_no_credentials E op c url f true Hop Hcall)
    as (Hurl & Hname & Hpass & Hkey & Hdev).
  exists url, f.
  apply run_cases in Hrun
    as [(_ & -> & ->) | [(-> & _) | (url' & f' & b & r & Hcall' & Hrun)]].
  - exists []. rewrite app_nil_r. repeat split; try assumption.
    intros request [].
  - discriminate.
  - rewrite Hcall in Hcall'. injection Hcall' as <- <- <-.
    apply doPastebinRequest_shape in Hrun.
    destruct Hrun as [[_ [[_ ->] | ->]]
                     | [_ (L & -> & [[_ [-> | ->]] | (k & _ & ->)])]];
      eexists; repeat split; try eassumption; try reflexivity;
      simpl; intuition.
Qed.

(** A session key that does not start with the error prefix is never
    replaced by one that does: [login] stores only bodies that passed the
    prefix check.  The client [NewClient] returns has such a key (the empty
    one or an accepted body), so every client made and used through the
    exported functions keeps it. *)
Theorem session_key_never_error_text (E : Env) fuel :
  (forall op c w c' w',
      run E fuel op c w = Some (c', w') ->
      Go.strings_HasPrefix (sessionKey c) bad_api_request = false ->
      Go.strings_HasPrefix (sessionKey c') bad_api_request = false)
  /\ (forall user pass key w err c' w',
      NewClient E fuel user pass key w = Some (err, c', w') ->
      Go.strings_HasPrefix (sessionKey c') bad_api_request = false).
Proof.
  split.
  - intros op c w c' w'
      [(_ & -> & ->) | [(-> & err & Hrun) | (url & f & b & r & _ & Hrun)]]
      %run_cases Hclean.
    + exact Hclean.
    + apply login_shape in Hrun as (L & _ & _ & [-> | (k & -> & Hk)]);
        assumption.
    + apply doPastebinRequest_key in Hrun as [-> | (k & -> & Hk)];
        assumption.
  - intros user pass key w err c' w'. unfold NewClient.
    destruct (negb _).
    + intros (L & _ & _ & [-> | (k & -> & Hk)])%login_shape;
        [reflexivity | exact Hk].
    + intros [= <- <- <-]. reflexivity.
Qed.

(** ** [CreatePaste] and [GetRawPaste] *)



(** [GetRawPaste] reads the body before it looks at the status.  A body
    that cannot be read gives the read error, whatever the status; a status
    other than 200 gives an error whose text is the body, not the status
    line, so an empty body gives an error with an empty text. *)
Theorem raw_paste_error_text (E : Env) pasteKey w response :
  round_trip E (sent w) (raw_request pasteKey) = Ok response ->
  (forall err,
      Body response = Err err ->
      fst (GetRawPaste E pasteKey w) = Err err)
  /\ (forall body,
      Body response = Ok body -> StatusCode response <> 200%Z ->
      fst (GetRawPaste E pasteKey w) = Err (errors_New body)
      /\ Error (errors_New body) = body).
Proof.
  intros Hr. unfold GetRawPaste, client_Get, send.
  fold (raw_request pasteKey). rewrite Hr.
  split.
  - intros err ->. reflexivity.
  - intros body -> Hcode%Z.eqb_neq. rewrite Hcode. auto.
Qed.

(** ** Two calls in a row *)

(** An expired session costs one failed call.  With a server that refuses
    the old key, accepts the login and accepts the new key, [DeletePaste]
    re-authenticates, retries with the old key and fails with the
    invalid-session text; the receiver then holds the new key, and the same
    call made again succeeds with one request. *)
Theorem expired_session_costs_one_call (E : Env) n pasteKey c w k body :
  sessionKey c <> EmptyString ->
  k <> EmptyString ->
  Go.strings_HasPrefix k bad_api_request = false ->
  Go.strings_HasPrefix body bad_api_request = false ->
  NewRequest_error E "POST" RawApiUrl = None ->
  NewRequest_error E "POST" LoginApiUrl = None ->
  (forall history,
      answers_200
        (round_trip E history
           (post_request RawApiUrl (DeletePaste_fields c pasteKey)))
        invalid_api_user_key) ->
  (forall history,
      answers_200
        (round_trip E history (post_request LoginApiUrl (login_fields c)))
        k) ->
  (forall history,
      answers_200
        (round_trip E history
           (post_request RawApiUrl
              (DeletePaste_fields (set_sessionKey k c) pasteKey)))
        body) ->
  exists w1,
    DeletePaste E (3 + n) pasteKey c w
    = Some (Some (errors_New invalid_api_user_key), set_sessionKey k c, w1)
    /\ length (sent w1) = length (sent w) + 3
    /\ DeletePaste E (3 + n) pasteKey (set_sessionKey k c) w1
       = Some (None, set_sessionKey k c,
               w1 ++ [EvEnter 0 RawApiUrl
                        (DeletePaste_fields (set_sessionKey k c) pasteKey)
                        true;
                      EvSend (post_request RawApiUrl
                                (DeletePaste_fields (set_sessionKey k c)
                                   pasteKey))]).
Proof.
  intros Hold%not_empty Hnew%not_empty Hk Hbody HN HL Hstale Hlogin Hfresh.
  unfold DeletePaste, bind, this, ret.
  rewrite Hold. cbn [sessionKey set_sessionKey]. rewrite Hnew.
  change (3 + n) with (S (S (S n))).
  rewrite doPastebinRequest_reauth, login_eq, HL;
    [|assumption|apply wants_reauth_200, Hstale].
  cbv zeta. rewrite (read_answer_200 _ _ (Hlogin _)), Hk.
  rewrite doPastebinRequest_plain, HN.
  rewrite (read_answer_200 _ _ (Hstale _)). cbn [Go.strings_HasPrefix].
  change (Go.strings_HasPrefix invalid_api_user_key bad_api_request)
    with true. cbv iota.
  eexists. split; [reflexivity|]. split.
  - rewrite <- !app_assoc, sent_app, length_app. reflexivity.
  - rewrite doPastebinRequest_direct; [|assumption|].
    + rewrite (read_answer_200 _ _ (Hfresh _)), Hbody. reflexivity.
    + cbn [andb]. destruct (wants_reauth _) eqn:Hw; [|reflexivity].
      apply wants_reauth_200 in Hw.
      destruct Hw as (r1 & Hr1 & _ & Hb1).
      destruct (Hfresh (sent
        (((w ++ [EvEnter 0 RawApiUrl (DeletePaste_fields c pasteKey) true;
                 EvSend (post_request RawApiUrl
                           (DeletePaste_fields c pasteKey));
                 EvPrint reauth_notice]) ++
          [EvLogin; EvEnter 1 LoginApiUrl (login_fields c) false;
           EvSend (post_request LoginApiUrl (login_fields c))]) ++
         [EvEnter 1 RawApiUrl (DeletePaste_fields c pasteKey) false;
          EvSend (post_request RawApiUrl (DeletePaste_fields c pasteKey))])))
        as (r2 & Hr2 & _ & Hb2).
      rewrite Hr1 in Hr2. injection Hr2 as ->.
      rewrite Hb1 in Hb2. injection Hb2 as <-. discriminate Hbody.
Qed.

(** ** The further properties on sample runs *)

Lemma status_error_is_status_line_witness :
  let E := sample_env [status_403 invalid_api_user_key] in
  let f := DeletePaste_fields alice "k1" in
  let response :=
    {| StatusCode := 403; Status := "403 Forbidden";
       Body := Ok invalid_api_user_key |} in
  NewRequest_error E "POST" RawApiUrl = None
  /\ round_trip E (sent []) (post_request RawApiUrl f) = Ok response
  /\ StatusCode response <> 200%Z
  /\ doPastebinRequest E 1 0 RawApiUrl f true alice []
     = Some (Err (errors_New "403 Forbidden"), alice,
             [] ++ [EvEnter 0 RawApiUrl f true;
                    EvSend (post_request RawApiUrl f)]).
Proof.
  intros E f response.
  assert (H1 : NewRequest_error E "POST" RawApiUrl = None) by reflexivity.
  assert (H2 : round_trip E (sent []) (post_request RawApiUrl f)
               = Ok response) by reflexivity.
  assert (H3 : StatusCode response <> 200%Z) by discriminate.
  repeat (split; [assumption|]).
  exact (status_error_is_status_line E 0 0 RawApiUrl f true alice []
           response H1 H2 H3).
Defined.

Lemma other_answers_not_retried_witness :
  let E := sample_env [] in
  let f := DeletePaste_fields alice "k1" in
  NewRequest_error E "POST" RawApiUrl = None
  /\ ~ answers_200 (round_trip E (sent []) (post_request RawApiUrl f))
         invalid_api_user_key
  /\ exists r,
      doPastebinRequest E 1 0 RawApiUrl f true alice []
      = Some (r, alice,
              [] ++ [EvEnter 0 RawApiUrl f true;
                     EvSend (post_request RawApiUrl f)])
      /\ r = Err (lib_error "connection refused").
Proof.
  intros E f.
  assert (H1 : NewRequest_error E "POST" RawApiUrl = None) by reflexivity.
  assert (H2 : ~ answers_200
                   (round_trip E (sent []) (post_request RawApiUrl f))
                   invalid_api_user_key)
    by (intros (response & H & _); discriminate H).
  split; [exact H1|]. split; [exact H2|].
  destruct (other_answers_not_retried E 0 0 RawApiUrl f alice [] H1 H2)
    as (r & Hrun & Herr & _).
  exists r. split; [exact Hrun|]. apply Herr. reflexivity.
Defined.

Lemma login_stores_body_witness :
  let E := sample_env [ok_200 "new"] in
  NewRequest_error E "POST" LoginApiUrl = None
  /\ answers_200
       (round_trip E (sent [])
          (post_request LoginApiUrl (login_fields alice))) "new"
  /\ Go.strings_HasPrefix "new" bad_api_request = false
  /\ login E 2 0 alice []
     = Some (None, set_sessionKey "new" alice,
             [] ++ [EvLogin; EvEnter 0 LoginApiUrl (login_fields alice) false;
                    EvSend (post_request LoginApiUrl (login_fields alice))]).
Proof.
  intros E.
  assert (H1 : NewRequest_error E "POST" LoginApiUrl = None) by reflexivity.
  assert (H2 : answers_200
                 (round_trip E (sent [])
                    (post_request LoginApiUrl (login_fields alice))) "new").
  { eexists. split; [reflexivity|]. split; reflexivity. }
  assert (H3 : Go.strings_HasPrefix "new" bad_api_request = false)
    by reflexivity.
  repeat (split; [assumption|]).
  exact (proj1 (login_stores_body E 0 0 alice [] "new" H1 H2 H3)).
Defined.

Lemma login_failure_keeps_client_witness :
  let E := sample_env [ok_200 "Bad API request, invalid login"] in
  NewRequest_error E "POST" LoginApiUrl = None
  /\ answers_200
       (round_trip E (sent [])
          (post_request LoginApiUrl (login_fields alice)))
       "Bad API request, invalid login"
  /\ Go.strings_HasPrefix "Bad API request, invalid login" bad_api_request
     = true
  /\ login E 2 0 alice []
     = Some (Some (errors_New "Bad API request, invalid login"), alice,
             [] ++ [EvLogin; EvEnter 0 LoginApiUrl (login_fields alice) false;
                    EvSend (post_request LoginApiUrl (login_fields alice))]).
Proof.
  intros E.
  assert (H1 : NewRequest_error E "POST" LoginApiUrl = None) by reflexivity.
  assert (H2 : answers_200
                 (round_trip E (sent [])
                    (post_request LoginApiUrl (login_fields alice)))
                 "Bad API request, invalid login").
  { eexists. split; [reflexivity|]. split; reflexivity. }
  assert (H3 : Go.strings_HasPrefix "Bad API request, invalid login"
                 bad_api_request = true) by reflexivity.
  repeat (split; [assumption|]).
  exact (login_failure_keeps_client E 0 0 alice [] _ H1 H2 H3).
Defined.

Lemma NewClient_logs_in_witness :
  let E := sample_env [status_401] in
  "alice" <> EmptyString
  /\ NewRequest_error E "POST" LoginApiUrl = None
  /\ exists w',
      NewClient E 2 "alice" "secret" "dev" []
      = Some (Some (errors_New "401 Unauthorized"),
              {| username := "alice"; password := "secret";
                 developerApiKey := "dev"; sessionKey := EmptyString |}, w').
Proof.
  intros E.
  assert (H1 : "alice" <> EmptyString) by discriminate.
  assert (H2 : NewRequest_error E "POST" LoginApiUrl = None) by reflexivity.
  split; [exact H1|]. split; [exact H2|].
  eexists.
  exact (proj2 (NewClient_logs_in E 0 "alice" "secret" "dev" [] H1 H2)
           (errors_New "401 Unauthorized") eq_refl).
Defined.

Lemma empty_login_body_is_no_session_witness :
  let E := sample_env [ok_200 EmptyString] in
  "alice" <> EmptyString
  /\ NewRequest_error E "POST" LoginApiUrl = None
  /\ answers_200
       (round_trip E (sent [])
          (post_request LoginApiUrl
             (login_fields
                {| username := "alice"; password := "secret";
                   developerApiKey := "dev"; sessionKey := EmptyString |})))
       EmptyString
  /\ exists c' w',
      NewClient E 2 "alice" "secret" "dev" [] = Some (None, c', w')
      /\ DeletePaste E 3 "k1" c' w' = Some (Some ErrNotAuthenticated, c', w').
Proof.
  intros E.
  assert (H1 : "alice" <> EmptyString) by discriminate.
  assert (H2 : NewRequest_error E "POST" LoginApiUrl = None) by reflexivity.
  assert (H3 : answers_200
                 (round_trip E (sent [])
                    (post_request LoginApiUrl
                       (login_fields
                          {| username := "alice"; password := "secret";
                             developerApiKey := "dev";
                             sessionKey := EmptyString |})))
                 EmptyString).
  { eexists. split; [reflexivity|]. split; reflexivity. }
  repeat (split; [assumption|]).
  destruct (empty_login_body_is_no_session E 0 "alice" "secret" "dev" []
              H1 H2 H3) as (c' & w' & Hnew & Hmethods).
  exists c', w'. split; [exact Hnew|]. exact (proj1 (Hmethods 3 "k1")).
Defined.

Lemma operation_sends_at_most_three_witness :
  exists c' w',
    run expired_key_env 3 (OpDeletePaste "k1") alice [] = Some (c', w')
    /\ exists evs,
        w' = [] ++ evs /\ length (sent evs) <= 3 /\ logins evs <= 1.
Proof.
  eexists _, _.
  assert (H : run expired_key_env 3 (OpDeletePaste "k1") alice []
              = Some (set_sessionKey "new" alice,
                      [EvEnter 0 RawApiUrl (DeletePaste_fields alice "k1") true;
                       EvSend (post_request RawApiUrl
                                 (DeletePaste_fields alice "k1"));
                       EvPrint reauth_notice; EvLogin;
                       EvEnter 1 LoginApiUrl (login_fields alice) false;
                       EvSend (post_request LoginApiUrl (login_fields alice));
                       EvEnter 1 RawApiUrl (DeletePaste_fields alice "k1")
                         false;
                       EvSend (post_request RawApiUrl
                                 (DeletePaste_fields alice "k1"))]))
    by reflexivity.
  split; [exact H|].
  destruct (operation_sends_at_most_three expired_key_env 3
              (OpDeletePaste "k1") alice [] _ _ H)
    as (evs & Hevs & Hsent & Hlogins & _).
  exists evs. auto.
Defined.

Lemma notice_once_per_reauthentication_witness :
  exists c' w',
    OpDeletePaste "k1" <> OpLogin
    /\ run expired_key_env 3 (OpDeletePaste "k1") alice [] = Some (c', w')
    /\ exists evs, w' = [] ++ evs /\ printed evs = [reauth_notice].
Proof.
  eexists _, _.
  assert (H1 : OpDeletePaste "k1" <> OpLogin) by discriminate.
  assert (H2 : run expired_key_env 3 (OpDeletePaste "k1") alice []
               = Some (set_sessionKey "new" alice,
                       [EvEnter 0 RawApiUrl (DeletePaste_fields alice "k1")
                          true;
                        EvSend (post_request RawApiUrl
                                  (DeletePaste_fields alice "k1"));
                        EvPrint reauth_notice; EvLogin;
                        EvEnter 1 LoginApiUrl (login_fields alice) false;
                        EvSend (post_request LoginApiUrl (login_fields alice));
                        EvEnter 1 RawApiUrl (DeletePaste_fields alice "k1")
                          false;
                        EvSend (post_request RawApiUrl
                                  (DeletePaste_fields alice "k1"))]))
    by reflexivity.
  split; [exact H1|]. split; [exact H2|].
  destruct (notice_once_per_reauthentication expired_key_env 3
              (OpDeletePaste "k1") alice [] _ _ H1 H2) as (evs & Hevs & Hp).
  exists evs. split; [exact Hevs|].
  simpl in Hevs. subst evs. reflexivity.
Defined.

Lemma credentials_only_to_login_witness :
  exists c' w',
    is_method (OpDeletePaste "k1") = true
    /\ run expired_key_env 3 (OpDeletePaste "k1") alice [] = Some (c', w')
    /\ exists url f evs,
        pipeline_call expired_key_env (OpDeletePaste "k1") alice
        = Some (url, f, true)
        /\ w' = [] ++ evs
        /\ f !! "api_user_password" = None.
Proof.
  eexists _, _.
  assert (H1 : is_method (OpDeletePaste "k1") = true) by reflexivity.
  assert (H2 : run expired_key_env 3 (OpDeletePaste "k1") alice []
               = Some (set_sessionKey "new" alice,
                       [EvEnter 0 RawApiUrl (DeletePaste_fields alice "k1")
                          true;
                        EvSend (post_request RawApiUrl
                                  (DeletePaste_fields alice "k1"));
                        EvPrint reauth_notice; EvLogin;
                        EvEnter 1 LoginApiUrl (login_fields alice) false;
                        EvSend (post_request LoginApiUrl (login_fields alice));
                        EvEnter 1 RawApiUrl (DeletePaste_fields alice "k1")
                          false;
                        EvSend (post_request RawApiUrl
                                  (DeletePaste_fields alice "k1"))]))
    by reflexivity.
  split; [exact H1|]. split; [exact H2|].
  destruct (credentials_only_to_login expired_key_env 3
              (OpDeletePaste "k1") alice [] _ _ H1 H2)
    as (url & f & evs & Hcall & Hevs & _ & _ & Hpass & _).
  exists url, f, evs. auto.
Defined.


Lemma raw_paste_error_text_witness :
  let E := sample_env [status_403 "blocked"] in
  let response :=
    {| StatusCode := 403; Status := "403 Forbidden"; Body := Ok "blocked" |} in
  round_trip E (sent []) (raw_request "abc123") = Ok response
  /\ Body response = Ok "blocked"
  /\ StatusCode response <> 200%Z
  /\ fst (GetRawPaste E "abc123" []) = Err (errors_New "blocked").
Proof.
  intros E response.
  assert (H1 : round_trip E (sent []) (raw_request "abc123") = Ok response)
    by reflexivity.
  assert (H2 : Body response = Ok "blocked") by reflexivity.
  assert (H3 : StatusCode response <> 200%Z) by discriminate.
  repeat (split; [assumption|]).
  exact (proj1 (proj2 (raw_paste_error_text E "abc123" [] response H1)
                  "blocked" H2 H3)).
Defined.

Lemma expired_session_costs_one_call_witness :
  let E := expired_key_env in
  sessionKey alice <> EmptyString
  /\ "new" <> EmptyString
  /\ Go.strings_HasPrefix "new" bad_api_request = false
  /\ Go.strings_HasPrefix "Paste Removed" bad_api_request = false
  /\ NewRequest_error E "POST" RawApiUrl = None
  /\ NewRequest_error E "POST" LoginApiUrl = None
  /\ (forall history,
        answers_200
          (round_trip E history
             (post_request RawApiUrl (DeletePaste_fields alice "k1")))
          invalid_api_user_key)
  /\ (forall history,
        answers_200
          (round_trip E history
             (post_request LoginApiUrl (login_fields alice))) "new")
  /\ (forall history,
        answers_200
          (round_trip E history
             (post_request RawApiUrl
                (DeletePaste_fields (set_sessionKey "new" alice) "k1")))
          "Paste Removed")
  /\ exists w1,
      DeletePaste E 3 "k1" alice []
      = Some (Some (errors_New invalid_api_user_key),
              set_sessionKey "new" alice, w1)
      /\ exists w2,
          DeletePaste E 3 "k1" (set_sessionKey "new" alice) w1
          = Some (None, set_sessionKey "new" alice, w2).
Proof.
  intros E.
  assert (H1 : sessionKey alice <> EmptyString) by discriminate.
  assert (H2 : "new" <> EmptyString) by discriminate.
  assert (H3 : Go.strings_HasPrefix "new" bad_api_request = false)
    by reflexivity.
  assert (H4 : Go.strings_HasPrefix "Paste Removed" bad_api_request = false)
    by reflexivity.
  assert (H5 : NewRequest_error E "POST" RawApiUrl = None) by reflexivity.
  assert (H6 : NewRequest_error E "POST" LoginApiUrl = None) by reflexivity.
  assert (H7 : forall history,
             answers_200
               (round_trip E history
                  (post_request RawApiUrl (DeletePaste_fields alice "k1")))
               invalid_api_user_key).
  { intros history. eexists. split; [vm_compute; reflexivity|].
    split; reflexivity. }
  assert (H8 : forall history,
             answers_200
               (round_trip E history
                  (post_request LoginApiUrl (login_fields alice))) "new").
  { intros history. eexists. split; [vm_compute; reflexivity|].
    split; reflexivity. }
  assert (H9 : forall history,
             answers_200
               (round_trip E history
                  (post_request RawApiUrl
                     (DeletePaste_fields (set_sessionKey "new" alice) "k1")))
               "Paste Removed").
  { intros history. eexists. split; [vm_compute; reflexivity|].
    split; reflexivity. }
  repeat (split; [assumption|]).
  destruct (expired_session_costs_one_call E 0 "k1" alice [] "new"
              "Paste Removed" H1 H2 H3 H4 H5 H6 H7 H8 H9)
    as (w1 & Hfirst & _ & Hsecond).
  exists w1. split; [exact Hfirst|]. eexists. exact Hsecond.
Defined.
